(** * NGN/USD exchange-rate application: a shallow embedding of [app.py]

    The program is a Flask application with one view, [index], a
    command-line display function, [main], and the routine both share,
    [get_exchange_rate], which performs one HTTP GET, reads the parsed
    JSON document and turns every outcome into a Python dictionary.

    The embedding keeps the program's own data: parsed JSON as Python
    values (dictionaries are finite maps keyed by strings), binary64
    floats as the Standard Library's [spec_float] with IEEE division,
    exceptions as an error monad, and the observable effects (the HTTP
    request, the clock, standard output, the division of line 24) as a
    trace written next to the result. *)

From Stdlib Require Import ZArith String Ascii List DecimalString.
From Stdlib.Floats Require Import SpecFloat.
From stdpp Require Import gmap strings.

#[local] Set Warnings "-register-all".
#[local] Open Scope Z_scope.

(** ** Python values *)

(** What [response.json()] can produce: the seven JSON-born Python types. *)
Inductive pyval : Type :=
| PyNone
| PyBool (b : bool)
| PyInt (n : Z)
| PyFloat (f : spec_float)
| PyStr (s : string)
| PyList (l : list pyval)
| PyDict (d : gmap string pyval).

(** Python's [type(v).__name__], as it appears in interpreter messages. *)
Definition type_name (v : pyval) : string :=
  match v with
  | PyNone => "NoneType"
  | PyBool _ => "bool"
  | PyInt _ => "int"
  | PyFloat _ => "float"
  | PyStr _ => "str"
  | PyList _ => "list"
  | PyDict _ => "dict"
  end.

(** ** binary64 arithmetic *)

Module Float64.

Definition prec : Z := 53.
Definition emax : Z := 1024.

Definition zero : spec_float := S754_zero false.

(** [float(n)] for a Python int: round to nearest, ties to even; a value
    beyond the binary64 range comes out as an infinity, which the callers
    turn into [OverflowError]. *)
Definition of_int (n : Z) : spec_float := binary_normalize prec emax n 0 false.

Definition one : spec_float := Eval cbv in of_int 1.

Definition div (x y : spec_float) : spec_float := SFdiv prec emax x y.

(** An integer as an exact (unrounded) operand of the division. *)
Definition exact_int (n : Z) : spec_float :=
  match n with
  | Z0 => S754_zero false
  | Zpos p => S754_finite false p 0
  | Zneg p => S754_finite true p 0
  end.

(** [a / b] on two Python ints ([long_true_divide]): the quotient of the
    exact integers, rounded once. *)
Definition int_true_divide (a b : Z) : spec_float :=
  div (exact_int a) (exact_int b).

Definition is_zero (f : spec_float) : bool := SFeqb f zero.

Definition is_finite (f : spec_float) : bool :=
  match f with
  | S754_zero _ | S754_finite _ _ _ => true
  | S754_infinity _ | S754_nan => false
  end.

End Float64.

(** ** Decimal output *)

Definition dquote : string := String "034"%char EmptyString.
Definition newline : string := String "010"%char EmptyString.

Definition string_of_Z (n : Z) : string :=
  NilZero.string_of_int (Z.to_int n).

Fixpoint zeros (k : nat) : string :=
  match k with
  | O => ""
  | S k' => String "0"%char (zeros k')
  end.

(** [n] in decimal, left-padded with zeros to at least [width] characters. *)
Definition pad_left (width : nat) (n : Z) : string :=
  let s := string_of_Z n in
  zeros (width - String.length s) +:+ s.

(** Division of a non-negative [a] by a positive [b], rounded to the
    nearest integer with ties to even. *)
Definition div_half_even (a b : Z) : Z :=
  let q := a / b in
  let r := a mod b in
  match (2 * r ?= b) with
  | Lt => q
  | Gt => q + 1
  | Eq => if Z.even q then q else q + 1
  end.

(** The integer nearest to [m * 2^e * 10^d]. *)
Definition scaled (d : nat) (m : positive) (e : Z) : Z :=
  let num := Zpos m * 10 ^ Z.of_nat d in
  if 0 <=? e then num * 2 ^ e else div_half_even num (2 ^ (- e)).

Definition fixed_digits (d : nat) (n : Z) : string :=
  let unit := 10 ^ Z.of_nat d in
  string_of_Z (n / unit) +:+
  match d with
  | O => ""
  | S _ => "." +:+ pad_left d (n mod unit)
  end.

Definition sign_prefix (s : bool) : string := if s then "-" else "".

(** C's [%.<d>f] on a double, which both ["%.6f" % x] and [f"{x:.6f}"]
    end in: correctly rounded, sign kept on negative zero. *)
Definition float_fixed (d : nat) (f : spec_float) : string :=
  match f with
  | S754_nan => "nan"
  | S754_infinity s => sign_prefix s +:+ "inf"
  | S754_zero s => sign_prefix s +:+ fixed_digits d 0
  | S754_finite s m e => sign_prefix s +:+ fixed_digits d (scaled d m e)
  end.

(** ** Text and its encoding *)

(** A Python [str] is kept as its UTF-8 bytes.  JSON's [\udXXX] escapes can
    put a lone surrogate into a [str]; it is kept as the three bytes
    ED A0..BF 80..BF that the [surrogatepass] error handler writes for it,
    so that every [str] has exactly one representation and concatenation
    is concatenation.  Such a text has no UTF-8 encoding: [str.encode()]
    and a strict text stream raise [UnicodeEncodeError] on it. *)
Definition byte (c : ascii) : Z := Z.of_N (N_of_ascii c).

(** The text begins with the bytes of a surrogate. *)
Definition starts_surrogate (s : string) : bool :=
  match s with
  | String c1 (String c2 _) =>
      (byte c1 =? 237) && (160 <=? byte c2) && (byte c2 <? 192)
  | _ => false
  end.

Fixpoint has_surrogate (s : string) : bool :=
  match s with
  | EmptyString => false
  | String _ s' => starts_surrogate s || has_surrogate s'
  end.

(** Every character is ASCII. *)
Fixpoint ascii7 (s : string) : bool :=
  match s with
  | EmptyString => true
  | String c s' => (byte c <? 128) && ascii7 s'
  end.

(** The number of surrogates the text begins with. *)
Fixpoint surrogate_run (s : string) : Z :=
  match s with
  | String _ (String _ (String _ rest)) =>
      if starts_surrogate s then 1 + surrogate_run rest else 0
  | _ => 0
  end.

(** The first surrogate of a text: its index, counted in characters from
    [pos], and the text from there on. *)
Fixpoint first_surrogate (s : string) (pos : Z) : option (Z * string) :=
  match s with
  | EmptyString => None
  | String c s' =>
      if starts_surrogate s then Some (pos, s)
      else first_surrogate s'
             (match s' with
              | String c' _ =>
                  if (128 <=? byte c') && (byte c' <? 192) then pos else pos + 1
              | EmptyString => pos + 1
              end)
  end.

Definition hex_digit (n : Z) : string :=
  String (ascii_of_N (Z.to_N (if n <? 10 then 48 + n else 87 + n))) EmptyString.

(** [\udXXX], as the message writes the character. *)
Definition surrogate_escape (s : string) : string :=
  match s with
  | String _ (String c2 (String c3 _)) =>
      let code := 53248 + (byte c2 - 128) * 64 + (byte c3 - 128) in
      "\u" +:+ hex_digit (code / 4096) +:+ hex_digit (code / 256 mod 16) +:+
      hex_digit (code / 16 mod 16) +:+ hex_digit (code mod 16)
  | _ => ""
  end.

(** [str(e)] of the [UnicodeEncodeError] that encoding [s] as UTF-8 raises. *)
Definition encode_error_text (s : string) : string :=
  match first_surrogate s 0 with
  | Some (pos, rest) =>
      let n := surrogate_run rest in
      if n <=? 1 then
        "'utf-8' codec can't encode character '" +:+ surrogate_escape rest +:+
        "' in position " +:+ string_of_Z pos +:+ ": surrogates not allowed"
      else
        "'utf-8' codec can't encode characters in position " +:+
        string_of_Z pos +:+ "-" +:+ string_of_Z (pos + n - 1) +:+
        ": surrogates not allowed"
  | None => ""
  end.

(** ** Exceptions, effects and the monad of the embedding *)

(** The exception classes the program can meet.  [RequestException] stands
    for [requests.RequestException] and all its subclasses, the only class
    the first handler of [get_exchange_rate] selects; every other
    constructor is an [Exception] that is not a [RequestException]. *)
Inductive exn : Type :=
| RequestException (text : string)
| KeyError (key : string)
| TypeError (text : string)
| AttributeError (text : string)
| ValueError (text : string)
| ZeroDivisionError (text : string)
| OverflowError (text : string)
| UnicodeEncodeError (text : string)
| OtherException (text : string).

Definition is_request_exception (e : exn) : bool :=
  match e with
  | RequestException _ => true
  | _ => false
  end.

(** [str(e)].  A [KeyError] prints the [repr] of its key; the keys of this
    program are plain identifiers, whose [repr] is the key in single
    quotes. *)
Definition exn_str (e : exn) : string :=
  match e with
  | KeyError k => "'" +:+ k +:+ "'"
  | RequestException t | TypeError t | AttributeError t | ValueError t
  | ZeroDivisionError t | OverflowError t | UnicodeEncodeError t
  | OtherException t => t
  end.

(** What a run leaves behind, in order. *)
Inductive event : Type :=
| EvHttpGet (url : string)          (* requests.get(url) was called *)
| EvTrueDiv (divisor : pyval)       (* 1 / divisor was evaluated *)
| EvClock                           (* datetime.now() was read *)
| EvPrint (text : string)           (* print(text) *)
| EvServe (host : string) (port : Z) (debug : bool).  (* app.run(...) *)

Inductive outcome (A : Type) : Type :=
| Ret (a : A)
| Raise (e : exn).
Arguments Ret {A} a.
Arguments Raise {A} e.

(** A computation: the events it performed and how it ended. *)
Definition M (A : Type) : Type := (list event * outcome A)%type.

Definition ret {A} (a : A) : M A := ([], Ret a).
Definition raise {A} (e : exn) : M A := ([], Raise e).
Definition emit (ev : event) : M unit := ([ev], Ret tt).

Definition bind {A B} (m : M A) (k : A -> M B) : M B :=
  match m with
  | (t, Ret a) => let '(t', r) := k a in (t ++ t', r)
  | (t, Raise e) => (t, Raise e)
  end.

(** [try: m except Exception as e: h e] *)
Definition try_except {A} (m : M A) (h : exn -> M A) : M A :=
  match m with
  | (t, Raise e) => let '(t', r) := h e in (t ++ t', r)
  | (t, Ret a) => (t, Ret a)
  end.

Definition lift {A} (o : outcome A) : M A := ([], o).

Notation "x <- m ;; k" := (bind m (fun x => k))
  (at level 100, m at next level, right associativity).
Notation "m ;;; k" := (bind m (fun _ => k))
  (at level 100, right associativity).

Definition trace {A} (m : M A) : list event := fst m.
Definition outcome_of {A} (m : M A) : outcome A := snd m.

(** Standard output: every [print] writes its text and a newline. *)
Fixpoint stdout (t : list event) : string :=
  match t with
  | [] => ""
  | EvPrint s :: t' => s +:+ newline +:+ stdout t'
  | _ :: t' => stdout t'
  end.

(** ** The environment of one run *)

(** A [requests.Response] as far as the program looks at it. *)
Record response : Type := Response {
  status_code : Z;
  json : outcome pyval          (* response.json(): a value, or it raises *)
}.

Record datetime : Type := Datetime {
  year : Z; month : Z; day : Z; hour : Z; minute : Z; second : Z
}.

(** What the outside answers during one run: the HTTP client and the clock. *)
Record world : Type := World {
  http : string -> outcome response;
  clock : datetime
}.

Definition requests_get (w : world) (url : string) : M response :=
  emit (EvHttpGet url) ;;; lift (http w url).

Definition datetime_now (w : world) : M datetime :=
  emit EvClock ;;; ret (clock w).

(** [strftime('%Y-%m-%d %H:%M:%S')] *)
Definition strftime (t : datetime) : string :=
  pad_left 4 (year t) +:+ "-" +:+ pad_left 2 (month t) +:+ "-" +:+
  pad_left 2 (day t) +:+ " " +:+ pad_left 2 (hour t) +:+ ":" +:+
  pad_left 2 (minute t) +:+ ":" +:+ pad_left 2 (second t).

(** ** Python operations the program applies to parsed JSON *)

(** [bool(v)], the test of an [if]. *)
Definition truthy (v : pyval) : bool :=
  match v with
  | PyNone => false
  | PyBool b => b
  | PyInt n => negb (n =? 0)
  | PyFloat f => negb (Float64.is_zero f)
  | PyStr s => negb (String.eqb s "")
  | PyList l => negb (Nat.eqb (length l) 0)
  | PyDict d => negb (Nat.eqb (size d) 0)
  end.

(** [d[key]] on a dictionary. *)
Definition dict_item (d : gmap string pyval) (key : string) : M pyval :=
  match d !! key with
  | Some v => ret v
  | None => raise (KeyError key)
  end.

(** [key in d] *)
Definition dict_contains (d : gmap string pyval) (key : string) : bool :=
  match d !! key with
  | Some _ => true
  | None => false
  end.

(** [v[key]] with a string key, on any value. *)
Definition getitem (v : pyval) (key : string) : M pyval :=
  match v with
  | PyDict d => dict_item d key
  | PyList _ => raise (TypeError "list indices must be integers or slices, not str")
  | PyStr _ => raise (TypeError "string indices must be integers, not 'str'")
  | _ => raise (TypeError ("'" +:+ type_name v +:+ "' object is not subscriptable"))
  end.

(** [v.get(key, default)] *)
Definition get_method (v : pyval) (key : string) (default : pyval) : M pyval :=
  match v with
  | PyDict d =>
      match d !! key with
      | Some x => ret x
      | None => ret default
      end
  | _ => raise (AttributeError ("'" +:+ type_name v +:+ "' object has no attribute 'get'"))
  end.

(** [v == s] for a string literal [s]. *)
Definition eq_str (v : pyval) (s : string) : bool :=
  match v with
  | PyStr t => String.eqb t s
  | _ => false
  end.

(** [1 / v]: true division of the int literal 1. *)
Definition true_divide_one (v : pyval) : M pyval :=
  emit (EvTrueDiv v) ;;;
  match v with
  | PyInt n =>
      if n =? 0 then raise (ZeroDivisionError "division by zero")
      else ret (PyFloat (Float64.int_true_divide 1 n))
  | PyBool b =>
      if b then ret (PyFloat (Float64.int_true_divide 1 1))
      else raise (ZeroDivisionError "division by zero")
  | PyFloat f =>
      if Float64.is_zero f then raise (ZeroDivisionError "float division by zero")
      else ret (PyFloat (Float64.div Float64.one f))
  | _ => raise (TypeError ("unsupported operand type(s) for /: 'int' and '"
                           +:+ type_name v +:+ "'"))
  end.

(** The number behind a value of a real type, for the [f] conversions. *)
Definition as_float (v : pyval) : option (outcome spec_float) :=
  let of_int n :=
    let f := Float64.of_int n in
    if Float64.is_finite f then Ret f
    else Raise (OverflowError "int too large to convert to float") in
  match v with
  | PyFloat f => Some (Ret f)
  | PyInt n => Some (of_int n)
  | PyBool b => Some (of_int (if b then 1 else 0))
  | _ => None
  end.

(** ["%.<d>f" % v] *)
Definition percent_f (d : nat) (v : pyval) : M string :=
  match as_float v with
  | Some o => f <- lift o ;; ret (float_fixed d f)
  | None => raise (TypeError ("must be real number, not " +:+ type_name v))
  end.

(** [format(v, ".<d>f")], the replacement field [{v:.<d>f}] of an f-string. *)
Definition format_f (d : nat) (v : pyval) : M string :=
  match as_float v with
  | Some o => f <- lift o ;; ret (float_fixed d f)
  | None =>
      match v with
      | PyStr _ => raise (ValueError "Unknown format code 'f' for object of type 'str'")
      | _ => raise (TypeError ("unsupported format string passed to "
                               +:+ type_name v +:+ ".__format__"))
      end
  end.

(** [markupsafe.escape], applied by Jinja to every [{{ ... }}] of a template
    rendered with [render_template_string]. *)
Fixpoint escape (s : string) : string :=
  match s with
  | EmptyString => ""
  | String c s' =>
      (if Ascii.eqb c "&" then "&amp;"
       else if Ascii.eqb c "<" then "&lt;"
       else if Ascii.eqb c ">" then "&gt;"
       else if Ascii.eqb c "'" then "&#39;"
       else if Ascii.eqb c "034" then "&#34;"
       else String c "") +:+ escape s'
  end.

(** ** Upstream answers used in the concrete runs *)

(** A stand-in for the interpreter's [repr] in the runs below, none of
    which reaches it. *)
Definition sample_repr (v : pyval) : string := "<" +:+ type_name v +:+ ">".

Definition stamp : pyval := PyStr "Fri, 02 Jan 2026 12:30:00 +0000".

(** The document of the test suite, with the NGN entry left open. *)
Definition document (rates : gmap string pyval) : gmap string pyval :=
  {[ "result" := PyStr "success";
     "rates" := PyDict rates;
     "time_last_update_utc" := stamp ]}.

Definition ngn (rate : pyval) : gmap string pyval := {[ "NGN" := rate ]}.

Definition half_past_noon : datetime := Datetime 2026 1 2 12 30 0.

Definition answering (code : Z) (doc : gmap string pyval) : response :=
  Response code (Ret (PyDict doc)).

Definition serving (r : response) : world :=
  World (fun _ => Ret r) half_past_noon.

Definition refusing : world :=
  World (fun _ => Raise (RequestException "Connection refused")) half_past_noon.

Definition forbidden : gmap string pyval :=
  {[ "result" := PyStr "error"; "error-type" := PyStr "forbidden" ]}.

(** The JSON string "\ud800": a lone surrogate, as three bytes. *)
Definition lone_surrogate : string :=
  String "237" (String "160" (String "128" EmptyString)).

Definition thousand : pyval := PyFloat (Float64.of_int 1000).

(** 10^309, an integer JSON can carry and binary64 cannot. *)
Definition beyond_double : pyval := PyInt (10 ^ 309).

(** ** The program *)

Section App.

(** [repr] of floats, lists and dictionaries belongs to the interpreter,
    not to the repository; the program only reaches it when the upstream
    document carries such a value where a string is expected. *)
Variable py_repr : pyval -> string.

(** [str(v)], which is also [format(v, "")] on these types. *)
Definition py_str (v : pyval) : string :=
  match v with
  | PyStr s => s
  | PyNone => "None"
  | PyBool b => if b then "True" else "False"
  | PyInt n => string_of_Z n
  | PyFloat _ | PyList _ | PyDict _ => py_repr v
  end.

Definition URL : string := "https://open.er-api.com/v6/latest/USD".

(** [{'error': msg}] *)
Definition failure (msg : string) : gmap string pyval :=
  {[ "error" := PyStr msg ]}.

(** The dictionary of lines 25-30. *)
Definition success (usd_rate ngn_rate last_updated : pyval) (now : string)
  : gmap string pyval :=
  {[ "ngn_to_usd" := usd_rate;
     "usd_to_ngn" := ngn_rate;
     "last_updated" := last_updated;
     "current_time" := PyStr now ]}.

(** The condition of line 18; [and] does not evaluate [data['result']]
    when the status is not 200. *)
Definition api_succeeded (r : response) (data : pyval) : M bool :=
  if status_code r =? 200 then
    res <- getitem data "result" ;;
    ret (eq_str res "success")
  else ret false.

(** Lines 15-34: the body of the [try]. *)
Definition fetch_body (w : world) : M (gmap string pyval) :=
  r <- requests_get w URL ;;
  data <- lift (json r) ;;
  ok <- api_succeeded r data ;;
  if ok then
    rates <- getitem data "rates" ;;
    ngn_rate <- get_method rates "NGN" PyNone ;;
    if truthy ngn_rate then
      usd_rate <- true_divide_one ngn_rate ;;
      last_updated <- getitem data "time_last_update_utc" ;;
      now <- datetime_now w ;;
      ret (success usd_rate ngn_rate last_updated (strftime now))
    else ret (failure "NGN rate not found in the response")
  else
    kind <- get_method data "error-type" (PyStr "Unknown error") ;;
    ret (failure ("API Error: " +:+ py_str kind)).

(** Lines 36-39: the two handlers, tried in order. *)
Definition handler (e : exn) : M (gmap string pyval) :=
  if is_request_exception e
  then ret (failure ("Request failed: " +:+ exn_str e))
  else ret (failure ("An unexpected error occurred: " +:+ exn_str e)).

Definition get_exchange_rate (w : world) : M (gmap string pyval) :=
  try_except (fetch_body w) handler.

(** *** The page *)

Definition template_head : string :=
"
<!DOCTYPE html>
<html>
<head>
    <title>NGN to USD Exchange Rate</title>
    <style>
        body { font-family: Arial, sans-serif; max-width: 600px; margin: 0 auto; padding: 20px; }
        .container { background-color: #f5f5f5; border-radius: 5px; padding: 20px; }
        .rate { font-size: 24px; font-weight: bold; color: #2c3e50; margin: 10px 0; }
        .info { color: #7f8c8d; font-size: 14px; }
        .error { color: #e74c3c; }
    </style>
</head>
<body>
    <div class=" +:+ dquote +:+ "container" +:+ dquote +:+ ">
        <h1>Current Exchange Rates</h1>
        ".

Definition template_tail : string :=
"
    </div>
</body>
</html>".

(** [<p class="cls">text</p>] on a line of its own, as the template
    indents it. *)
Definition paragraph (cls text : string) : string :=
  "
            <p class=" +:+ dquote +:+ cls +:+ dquote +:+ ">" +:+ text +:+ "</p>".

Definition block_end : string :=
"
        ".

(** [{{ "%.<d>f"|format(name) }}]; an undefined name reaches [%] as
    Jinja's [Undefined] object. *)
Definition format_filter (d : nat) (ctx : gmap string pyval) (name : string)
  : M string :=
  match ctx !! name with
  | Some v => s <- percent_f d v ;; ret (escape s)
  | None => raise (TypeError "must be real number, not Undefined")
  end.

(** [{{ name }}]; an undefined name prints as the empty string. *)
Definition variable (ctx : gmap string pyval) (name : string) : string :=
  match ctx !! name with
  | Some v => escape (py_str v)
  | None => ""
  end.

(** [{% if name %}] *)
Definition test (ctx : gmap string pyval) (name : string) : bool :=
  match ctx !! name with
  | Some v => truthy v
  | None => false
  end.

(** [render_template_string(HTML_TEMPLATE, **ctx)] *)
Definition render_template_string (ctx : gmap string pyval) : M string :=
  inner <-
    (if test ctx "error" then
       ret (paragraph "error" (variable ctx "error"))
     else
       a <- format_filter 6 ctx "ngn_to_usd" ;;
       b <- format_filter 2 ctx "usd_to_ngn" ;;
       ret (paragraph "rate" ("1 NGN = " +:+ a +:+ " USD") +:+
            paragraph "rate" ("1 USD = " +:+ b +:+ " NGN") +:+
            paragraph "info" ("Last Updated: " +:+ variable ctx "last_updated") +:+
            paragraph "info" ("Current Time: " +:+ variable ctx "current_time"))) ;;
  ret (template_head +:+ inner +:+ block_end +:+ template_tail).

(** *** The view and the command-line display *)

Definition index (w : world) : M string :=
  result <- get_exchange_rate w ;;
  if dict_contains result "error" then
    e <- dict_item result "error" ;;
    render_template_string {[ "error" := e ]}
  else
    a <- dict_item result "ngn_to_usd" ;;
    b <- dict_item result "usd_to_ngn" ;;
    c <- dict_item result "last_updated" ;;
    d <- dict_item result "current_time" ;;
    render_template_string
      {[ "ngn_to_usd" := a; "usd_to_ngn" := b;
         "last_updated" := c; "current_time" := d ]}.

(** [print(text)], on a standard output that encodes UTF-8 with strict
    errors, as CPython opens it in a UTF-8 locale: a text holding a
    surrogate raises before anything of it is written. *)
Definition print (text : string) : M unit :=
  if has_surrogate text
  then raise (UnicodeEncodeError (encode_error_text text))
  else emit (EvPrint text).

Definition main (w : world) : M unit :=
  print ("Fetching current NGN to USD exchange rate..." +:+ newline) ;;;
  result <- get_exchange_rate w ;;
  if dict_contains result "error" then
    e <- dict_item result "error" ;;
    print ("Error: " +:+ py_str e)
  else
    print "Current Exchange Rates:" ;;;
    a <- dict_item result "ngn_to_usd" ;;
    sa <- format_f 6 a ;;
    print ("1 NGN = " +:+ sa +:+ " USD") ;;;
    b <- dict_item result "usd_to_ngn" ;;
    sb <- format_f 2 b ;;
    print ("1 USD = " +:+ sb +:+ " NGN") ;;;
    c <- dict_item result "last_updated" ;;
    print (newline +:+ "Last Updated: " +:+ py_str c) ;;;
    d <- dict_item result "current_time" ;;
    print ("Current Time: " +:+ py_str d).

(** Lines 100-103: what running the file as a script does. *)
Definition script : M unit :=
  print "Starting web server. Access the exchange rate at http://127.0.0.1:5000/" ;;;
  emit (EvServe "0.0.0.0" 5000 true).

(** *** The Flask application *)

(** The rules [@app.route] registered: the file has exactly one. *)
Definition url_map : list (string * (world -> M string)) :=
  [ ("/", index) ].

Inductive http_response : Type :=
| Ok200 (body : string)
| NotFound404
| InternalServerError500 (cause : exn).

Definition status (r : http_response) : Z :=
  match r with
  | Ok200 _ => 200
  | NotFound404 => 404
  | InternalServerError500 _ => 500
  end.

Fixpoint find_view (rules : list (string * (world -> M string))) (path : string)
  : option (world -> M string) :=
  match rules with
  | [] => None
  | (rule, view) :: rules' =>
      if String.eqb rule path then Some view else find_view rules' path
  end.

(** The [Response] made of the string a view returned: the body is
    encoded as UTF-8, strictly; the error of a page that has no encoding
    is raised outside the view and answered with a 500. *)
Definition make_response (body : string) : http_response :=
  if has_surrogate body
  then InternalServerError500 (UnicodeEncodeError (encode_error_text body))
  else Ok200 body.

(** Flask answering [GET path]: the matching view's string becomes a 200
    response, a view that raises becomes a 500, no rule a 404. *)
Definition handle_get (w : world) (path : string) : list event * http_response :=
  match find_view url_map path with
  | None => ([], NotFound404)
  | Some view =>
      match view w with
      | (t, Ret body) => (t, make_response body)
      | (t, Raise e) => (t, InternalServerError500 e)
      end
  end.

(** ** Vocabulary of the properties *)

(** A rate the specification calls positive: a number r > 0. *)
Definition positive_rate (v : pyval) : Prop :=
  match v with
  | PyInt n => 0 < n
  | PyFloat f => SFltb Float64.zero f = true
  | _ => False
  end.

(** 1/r in binary64: IEEE division of 1.0 by a float, the exact quotient
    rounded once for an int. *)
Definition inverse_rate (v : pyval) : spec_float :=
  match v with
  | PyFloat f => Float64.div Float64.one f
  | PyInt n => Float64.int_true_divide 1 n
  | _ => S754_nan
  end.

(** The message the error branch of line 34 builds from the document. *)
Definition api_error_message (d : gmap string pyval) : string :=
  "API Error: " +:+
  match d !! "error-type" with
  | Some kind => py_str kind
  | None => "Unknown error"
  end.

(** A rate that is exactly zero. *)
Definition zero_rate (v : pyval) : Prop :=
  match v with
  | PyInt n => n = 0
  | PyFloat (S754_zero _) => True
  | _ => False
  end.

(** A value the [f] conversions accept: a float, an int or a bool. *)
Definition real (v : pyval) : Prop := as_float v <> None.

(** The two shapes of the specification's RateResult. *)
Inductive rate_result : gmap string pyval -> Prop :=
| IsFailure msg :
    truthy (PyStr msg) = true -> rate_result (failure msg)
| IsSuccess f rate stamp now :
    real rate -> rate_result (success (PyFloat f) rate stamp now).

Definition success_keys : gset string :=
  {[ "ngn_to_usd"; "usd_to_ngn"; "last_updated"; "current_time" ]}.

(** The rate converts to a float: it is a float, or an int or bool whose
    value is within the binary64 range. *)
Definition fits_float (v : pyval) : Prop :=
  match as_float v with
  | Some (Raise _) => False
  | _ => True
  end.

Definition renders (d : gmap string pyval) : Prop :=
  forall v, d !! "usd_to_ngn" = Some v -> fits_float v.

(** Lines 96-98 of [main]: what follows the first rate line. *)
Definition second_half (rate stamp : pyval) (now : string) : M unit :=
  sb <- format_f 2 rate ;;
  print ("1 USD = " +:+ sb +:+ " NGN") ;;;
  print (newline +:+ "Last Updated: " +:+ py_str stamp) ;;;
  print ("Current Time: " +:+ now).

(** The texts of the result that the presenters write out (the message of
    a failure, the update time of a success) hold no surrogate, so that
    they can be encoded. *)
Definition encodes (d : gmap string pyval) : Prop :=
  forall v, d !! "error" = Some v \/ d !! "last_updated" = Some v ->
            has_surrogate (py_str v) = false.

Definition fetching : event :=
  EvPrint ("Fetching current NGN to USD exchange rate..." +:+ newline).

(** What [main] prints after the fetch, line by line. *)
Definition failure_lines (msg : string) : list event :=
  [EvPrint ("Error: " +:+ msg)].

Definition rates_lines (f x : spec_float) (stamp : pyval) (now : string)
  : list event :=
  [EvPrint "Current Exchange Rates:";
   EvPrint ("1 NGN = " +:+ float_fixed 6 f +:+ " USD");
   EvPrint ("1 USD = " +:+ float_fixed 2 x +:+ " NGN");
   EvPrint (newline +:+ "Last Updated: " +:+ py_str stamp);
   EvPrint ("Current Time: " +:+ now)].

Definition error_page (msg : string) : string :=
  template_head +:+ paragraph "error" (escape msg) +:+ block_end +:+ template_tail.

Definition rates_page (f x : spec_float) (stamp : pyval) (now : string) : string :=
  template_head +:+
  (paragraph "rate" ("1 NGN = " +:+ escape (float_fixed 6 f) +:+ " USD") +:+
   paragraph "rate" ("1 USD = " +:+ escape (float_fixed 2 x) +:+ " NGN") +:+
   paragraph "info" ("Last Updated: " +:+ escape (py_str stamp)) +:+
   paragraph "info" ("Current Time: " +:+ escape now)) +:+
  block_end +:+ template_tail.

(** A computation that prints nothing. *)
Definition quiet {A} (m : M A) : Prop := stdout (trace m) = "".

Definition banner : string :=
  "Fetching current NGN to USD exchange rate..." +:+ newline +:+ newline.

Definition failure_report (msg : string) : string :=
  banner +:+ "Error: " +:+ msg +:+ newline.

Definition rates_report (f x : spec_float) (stamp : pyval) (now : string) : string :=
  banner +:+
  "Current Exchange Rates:" +:+ newline +:+
  "1 NGN = " +:+ float_fixed 6 f +:+ " USD" +:+ newline +:+
  "1 USD = " +:+ float_fixed 2 x +:+ " NGN" +:+ newline +:+
  newline +:+ "Last Updated: " +:+ py_str stamp +:+ newline +:+
  "Current Time: " +:+ now +:+ newline.

(** A number other than zero: what passes the test of line 22 and can be
    divided by.  Negative numbers, infinities and NaN are among them. *)
Definition nonzero_number (v : pyval) : Prop :=
  match v with
  | PyInt n => n <> 0
  | PyFloat f => Float64.is_zero f = false
  | _ => False
  end.

(** The handler that takes an exception, by its class. *)
Definition handled_message (e : exn) : string :=
  (if is_request_exception e
   then "Request failed: "
   else "An unexpected error occurred: ") +:+ exn_str e.

(** The effects a fetch may perform after its request. *)
Definition internal (ev : event) : Prop :=
  match ev with
  | EvTrueDiv _ | EvClock => True
  | _ => False
  end.

(** The three ways a run of the routine can go. *)
Inductive run_shape (w : world) : M (gmap string pyval) -> Prop :=
| RunEarly msg :
    truthy (PyStr msg) = true ->
    run_shape w ([EvHttpGet URL], Ret (failure msg))
| RunDivided v msg :
    truthy (PyStr msg) = true ->
    run_shape w ([EvHttpGet URL; EvTrueDiv v], Ret (failure msg))
| RunSuccess f v last_updated :
    real v ->
    run_shape w ([EvHttpGet URL; EvTrueDiv v; EvClock],
                 Ret (success (PyFloat f) v last_updated (strftime (clock w)))).

(** A computation without effects. *)
Definition effect_free {A} (m : M A) : Prop := trace m = [].

(** What [main] has printed when the second rate line fails to format. *)
Definition partial_report (f : spec_float) : string :=
  banner +:+
  "Current Exchange Rates:" +:+ newline +:+
  "1 NGN = " +:+ float_fixed 6 f +:+ " USD" +:+ newline.

(** ** Properties *)

(** *** Text *)

Lemma append_cons c (a b : string) : String c a +:+ b = String c (a +:+ b).
Proof. reflexivity. Qed.

Lemma ascii7_app (a b : string) : ascii7 (a +:+ b) = ascii7 a && ascii7 b.
Proof.
  induction a as [|c a IH]; [reflexivity|].
  rewrite append_cons. cbn [ascii7]. now rewrite IH, andb_assoc.
Qed.

Lemma starts_surrogate_ascii c s :
  (byte c <? 128) = true -> starts_surrogate (String c s) = false.
Proof.
  intros Hc. apply Z.ltb_lt in Hc. cbn [starts_surrogate].
  destruct s as [|c2 s]; [reflexivity|].
  replace (byte c =? 237) with false; [reflexivity|].
  symmetry. apply Z.eqb_neq. lia.
Qed.

Lemma starts_surrogate_before_ascii c c2 s :
  (byte c2 <? 128) = true -> starts_surrogate (String c (String c2 s)) = false.
Proof.
  intros Hc. apply Z.ltb_lt in Hc. cbn [starts_surrogate].
  replace (160 <=? byte c2) with false; [now rewrite andb_false_r|].
  symmetry. apply Z.leb_gt. lia.
Qed.

Lemma ascii7_no_surrogate s : ascii7 s = true -> has_surrogate s = false.
Proof.
  induction s as [|c s IH]; [reflexivity|].
  cbn [ascii7 has_surrogate]. intros [Hc Hs]%andb_true_iff.
  now rewrite (starts_surrogate_ascii _ _ Hc), IH.
Qed.

Lemma has_surrogate_after_ascii (a b : string) :
  ascii7 a = true -> has_surrogate (a +:+ b) = has_surrogate b.
Proof.
  induction a as [|c a IH]; [reflexivity|].
  cbn [ascii7]. intros [Hc Ha]%andb_true_iff.
  rewrite append_cons. cbn [has_surrogate].
  now rewrite (starts_surrogate_ascii _ _ Hc), IH.
Qed.

Lemma has_surrogate_before_ascii (a b : string) :
  ascii7 b = true -> has_surrogate (a +:+ b) = has_surrogate a.
Proof.
  intros Hb. induction a as [|c a IH].
  - now apply ascii7_no_surrogate.
  - rewrite append_cons. cbn [has_surrogate]. rewrite IH. f_equal.
    destruct a as [|c2 a]; [|reflexivity].
    change (String c ("" +:+ b)) with (String c b).
    destruct b as [|c2 b]; [reflexivity|].
    cbn [ascii7] in Hb. apply andb_true_iff in Hb as [Hc2 _].
    now rewrite (starts_surrogate_before_ascii _ _ _ Hc2).
Qed.

(** What [escape] does with one character. *)
Lemma escape_cons c s :
  (exists entity, escape (String c s) = entity +:+ escape s /\
                  ascii7 entity = true /\ entity <> "" /\ (byte c <? 128) = true) \/
  escape (String c s) = String c (escape s).
Proof.
  cbn [escape].
  destruct (Ascii.eqb c "&") eqn:E1;
    [apply Ascii.eqb_eq in E1; subst; left; eexists; repeat split; discriminate|].
  destruct (Ascii.eqb c "<") eqn:E2;
    [apply Ascii.eqb_eq in E2; subst; left; eexists; repeat split; discriminate|].
  destruct (Ascii.eqb c ">") eqn:E3;
    [apply Ascii.eqb_eq in E3; subst; left; eexists; repeat split; discriminate|].
  destruct (Ascii.eqb c "'") eqn:E4;
    [apply Ascii.eqb_eq in E4; subst; left; eexists; repeat split; discriminate|].
  destruct (Ascii.eqb c "034") eqn:E5;
    [apply Ascii.eqb_eq in E5; subst; left; eexists; repeat split; discriminate|].
  now right.
Qed.

Lemma ascii7_escape s : ascii7 s = true -> ascii7 (escape s) = true.
Proof.
  induction s as [|c s IH]; [reflexivity|].
  cbn [ascii7]. intros [Hc Hs]%andb_true_iff.
  destruct (escape_cons c s) as [(entity & -> & He & _) | ->].
  - now rewrite ascii7_app, He, IH.
  - cbn [ascii7]. now rewrite Hc, IH.
Qed.

Lemma starts_surrogate_escape c s :
  starts_surrogate (String c (escape s)) = starts_surrogate (String c s).
Proof.
  destruct s as [|c2 s]; [reflexivity|].
  destruct (escape_cons c2 s) as [(entity & -> & He & Hne & Hc2) | ->];
    [|reflexivity].
  rewrite (starts_surrogate_before_ascii _ _ _ Hc2).
  destruct entity as [|e entity]; [contradiction|].
  rewrite append_cons. apply starts_surrogate_before_ascii.
  cbn [ascii7] in He. now apply andb_true_iff in He as [-> _].
Qed.

Lemma has_surrogate_escape s : has_surrogate (escape s) = has_surrogate s.
Proof.
  induction s as [|c s IH]; [reflexivity|].
  destruct (escape_cons c s) as [(entity & -> & He & _ & Hc) | ->].
  - rewrite (has_surrogate_after_ascii _ _ He), IH. cbn [has_surrogate].
    now rewrite (starts_surrogate_ascii _ _ Hc).
  - cbn [has_surrogate]. now rewrite starts_surrogate_escape, IH.
Qed.

Lemma ascii7_zeros k : ascii7 (zeros k) = true.
Proof. induction k as [|k IH]; [reflexivity|]. cbn [zeros ascii7]. now rewrite IH. Qed.

Lemma ascii7_uint d : ascii7 (NilEmpty.string_of_uint d) = true.
Proof. induction d; cbn [NilEmpty.string_of_uint ascii7]; now rewrite ?IHd. Qed.

Lemma ascii7_string_of_Z n : ascii7 (string_of_Z n) = true.
Proof.
  unfold string_of_Z, NilZero.string_of_int, NilZero.string_of_uint.
  destruct (Z.to_int n) as [d|d]; destruct d; cbn [ascii7];
    rewrite ?ascii7_uint; reflexivity.
Qed.

Lemma ascii7_pad_left width n : ascii7 (pad_left width n) = true.
Proof. unfold pad_left. now rewrite ascii7_app, ascii7_zeros, ascii7_string_of_Z. Qed.

Lemma ascii7_fixed_digits d n : ascii7 (fixed_digits d n) = true.
Proof.
  unfold fixed_digits. rewrite ascii7_app, ascii7_string_of_Z.
  destruct d; [reflexivity|]. now rewrite ascii7_app, ascii7_pad_left.
Qed.

Lemma ascii7_float_fixed d f : ascii7 (float_fixed d f) = true.
Proof.
  unfold float_fixed, sign_prefix.
  destruct f as [s|s| |s m e]; try destruct s;
    rewrite ?ascii7_app, ?ascii7_fixed_digits; reflexivity.
Qed.

Lemma ascii7_strftime t : ascii7 (strftime t) = true.
Proof.
  unfold strftime. now rewrite !ascii7_app, !ascii7_pad_left.
Qed.

Ltac step :=
  cbn [bind lift emit ret raise app try_except getitem get_method eq_str
       Z.eqb Pos.eqb String.eqb Ascii.eqb Bool.eqb fst snd].
Ltac run := step; unfold dict_item, datetime_now; step.

Lemma positive_rate_truthy v : positive_rate v -> truthy v = true.
Proof.
  destruct v as [| |n|f| | |]; simpl; try contradiction.
  - intros H. apply negb_true_iff, Z.eqb_neq. lia.
  - destruct f as [s|s| |s m e]; try destruct s; intros H;
      try discriminate H; reflexivity.
Qed.

Lemma positive_rate_divide v :
  positive_rate v ->
  true_divide_one v = ([EvTrueDiv v], Ret (PyFloat (inverse_rate v))).
Proof.
  destruct v as [| |n|f| | |]; simpl; try contradiction.
  - intros H. unfold true_divide_one.
    replace (n =? 0) with false by (symmetry; apply Z.eqb_neq; lia).
    reflexivity.
  - intros H. unfold true_divide_one.
    replace (Float64.is_zero f) with false; [reflexivity|].
    destruct f as [s|s| |s m e]; try destruct s;
      try discriminate H; reflexivity.
Qed.

(** C4: when the upstream answers with status 200, result "success" and a
    rates mapping whose "NGN" entry is a number r > 0, the routine returns
    the success dictionary with ngn_to_usd = 1/r (the IEEE quotient, rounded
    once), usd_to_ngn = r itself and last_updated the document's
    "time_last_update_utc" entry, unchanged.  The entry the sentence speaks
    of is taken to be present in the document. *)
Theorem success_response w r d rates rate stamp :
  http w URL = Ret r ->
  status_code r = 200 ->
  json r = Ret (PyDict d) ->
  d !! "result" = Some (PyStr "success") ->
  d !! "rates" = Some (PyDict rates) ->
  rates !! "NGN" = Some rate ->
  positive_rate rate ->
  d !! "time_last_update_utc" = Some stamp ->
  get_exchange_rate w =
    ([EvHttpGet URL; EvTrueDiv rate; EvClock],
     Ret (success (PyFloat (inverse_rate rate)) rate stamp (strftime (clock w)))).
Proof.
  intros Hget Hst Hjs Hres Hrates Hngn Hpos Hstamp.
  unfold get_exchange_rate, fetch_body, requests_get, api_succeeded.
  rewrite Hget. run. rewrite Hjs, Hst. run.
  rewrite Hres. run. rewrite Hrates. run. rewrite Hngn. run.
  rewrite (positive_rate_truthy _ Hpos), (positive_rate_divide _ Hpos). run.
  rewrite Hstamp. run. reflexivity.
Qed.

(** C5: status 200, result "success" and a rates mapping without the key
    "NGN": the routine returns the failure dictionary whose message is
    exactly "NGN rate not found in the response". *)
Theorem missing_ngn_rate w r d rates :
  http w URL = Ret r ->
  status_code r = 200 ->
  json r = Ret (PyDict d) ->
  d !! "result" = Some (PyStr "success") ->
  d !! "rates" = Some (PyDict rates) ->
  rates !! "NGN" = None ->
  get_exchange_rate w =
    ([EvHttpGet URL], Ret (failure "NGN rate not found in the response")).
Proof.
  intros Hget Hst Hjs Hres Hrates Hngn.
  unfold get_exchange_rate, fetch_body, requests_get, api_succeeded.
  rewrite Hget. run. rewrite Hjs, Hst. run.
  rewrite Hres. run. rewrite Hrates. run. rewrite Hngn. reflexivity.
Qed.

Lemma eq_str_other v s : v <> PyStr s -> eq_str v s = false.
Proof.
  destruct v as [| | | |t| |]; try reflexivity.
  intros Hne. apply String.eqb_neq. congruence.
Qed.

(** C6: for a document that is a mapping, when the HTTP status is not 200
    or the declared result is not "success", the routine returns the
    failure dictionary with message "API Error: " followed by the
    "error-type" entry, or by "Unknown error" when the document has none. *)
Theorem api_error w r d :
  http w URL = Ret r ->
  json r = Ret (PyDict d) ->
  status_code r <> 200 \/
    (exists v, d !! "result" = Some v /\ v <> PyStr "success") ->
  get_exchange_rate w = ([EvHttpGet URL], Ret (failure (api_error_message d))).
Proof.
  intros Hget Hjs Hbad.
  unfold get_exchange_rate, fetch_body, requests_get, api_succeeded, api_error_message.
  rewrite Hget. run. rewrite Hjs. run.
  destruct (status_code r =? 200) eqn:Hst.
  - destruct Hbad as [Hne | (v & Hv & Hne)].
    + apply Z.eqb_eq in Hst. contradiction.
    + run. rewrite Hv. run. rewrite (eq_str_other _ _ Hne).
      destruct (d !! "error-type"); reflexivity.
  - run. destruct (d !! "error-type"); reflexivity.
Qed.

(** C7: when the HTTP GET raises a [RequestException] with text [text], the
    routine returns the failure dictionary with message "Request failed: "
    followed by [text]. *)
Theorem transport_failure w text :
  http w URL = Raise (RequestException text) ->
  get_exchange_rate w =
    ([EvHttpGet URL], Ret (failure ("Request failed: " +:+ text))).
Proof.
  intros Hget. unfold get_exchange_rate, fetch_body, requests_get.
  rewrite Hget. reflexivity.
Qed.

Lemma zero_rate_falsy v : zero_rate v -> truthy v = false.
Proof.
  destruct v as [| |n|f| | |]; simpl; try contradiction.
  - intros ->. reflexivity.
  - destruct f; try contradiction. reflexivity.
Qed.

(** C3, amended: when the upstream answer is otherwise successful and the
    "NGN" entry is exactly zero (the int 0, or the float 0.0 or -0.0), the
    test of line 22 fails, the division of line 24 is not evaluated (the
    trace holds the request alone) and the routine returns the failure
    "NGN rate not found in the response". *)
Theorem zero_rate_guarded w r d rates rate :
  http w URL = Ret r ->
  status_code r = 200 ->
  json r = Ret (PyDict d) ->
  d !! "result" = Some (PyStr "success") ->
  d !! "rates" = Some (PyDict rates) ->
  rates !! "NGN" = Some rate ->
  zero_rate rate ->
  get_exchange_rate w =
    ([EvHttpGet URL], Ret (failure "NGN rate not found in the response")).
Proof.
  intros Hget Hst Hjs Hres Hrates Hngn Hzero.
  unfold get_exchange_rate, fetch_body, requests_get, api_succeeded.
  rewrite Hget. run. rewrite Hjs, Hst. run.
  rewrite Hres. run. rewrite Hrates. run. rewrite Hngn. run.
  rewrite (zero_rate_falsy _ Hzero). reflexivity.
Qed.

Lemma true_divide_one_ret v t x :
  true_divide_one v = (t, Ret x) -> real v /\ exists f, x = PyFloat f.
Proof.
  unfold true_divide_one, real.
  destruct v as [|b|n|f| | |]; cbn [bind emit raise ret]; try discriminate.
  - destruct b; cbn; intros [= <- <-]; split; [discriminate | eauto].
  - destruct (n =? 0); cbn; intros [= <- <-]; split; [discriminate | eauto].
  - destruct (Float64.is_zero f); cbn; intros [= <- <-];
      split; [discriminate | eauto].
Qed.

Lemma handler_returns e :
  exists msg, handler e = ([], Ret (failure msg)) /\ truthy (PyStr msg) = true.
Proof.
  unfold handler. destruct (is_request_exception e); eexists; split;
    reflexivity.
Qed.

Lemma fetch_body_ret w t d : fetch_body w = (t, Ret d) -> rate_result d.
Proof.
  unfold fetch_body, requests_get, api_succeeded.
  destruct (http w URL) as [r|e]; run; [|discriminate].
  destruct (json r) as [data|e]; run; [|discriminate].
  destruct (status_code r =? 200).
  - destruct (getitem data "result") as [t1 [res|e]]; run; [|discriminate].
    destruct (eq_str res "success").
    + destruct (getitem data "rates") as [t2 [rates|e]]; run; [|discriminate].
      destruct (get_method rates "NGN" PyNone) as [t3 [rate|e]]; run;
        [|discriminate].
      destruct (truthy rate).
      * destruct (true_divide_one rate) as [t4 [q|e]] eqn:Hdiv; run;
          [|discriminate].
        apply true_divide_one_ret in Hdiv as [Hreal [f ->]].
        destruct (getitem data "time_last_update_utc") as [t5 [stamp|e]]; run;
          [|discriminate].
        intros [= _ <-]. now constructor.
      * intros [= _ <-]. now constructor.
    + destruct (get_method data "error-type" (PyStr "Unknown error"))
        as [t2 [kind|e]]; run; [|discriminate].
      intros [= _ <-]. now constructor.
  - destruct (get_method data "error-type" (PyStr "Unknown error"))
      as [t2 [kind|e]]; run; [|discriminate].
    intros [= _ <-]. now constructor.
Qed.

Lemma get_exchange_rate_returns w :
  exists d, get_exchange_rate w = (trace (fetch_body w), Ret d) /\ rate_result d.
Proof.
  unfold get_exchange_rate.
  destruct (fetch_body w) as [t [d|e]] eqn:Hbody; cbn [try_except trace fst].
  - exists d. split; [reflexivity | exact (fetch_body_ret _ _ _ Hbody)].
  - destruct (handler_returns e) as (msg & -> & Hmsg).
    exists (failure msg). rewrite app_nil_r. split; [reflexivity | now constructor].
Qed.

Lemma handled w e :
  outcome_of (fetch_body w) = Raise e ->
  outcome_of (get_exchange_rate w) = outcome_of (handler e).
Proof.
  unfold get_exchange_rate, outcome_of.
  destruct (fetch_body w) as [t o]. cbn [snd]. intros ->.
  cbn [try_except]. now destruct (handler e).
Qed.

(** C8: the routine is total at its boundary.  For every answer of the
    outside it returns a dictionary of one of the two shapes; an exception
    raised inside the [try] never leaves it: a [RequestException] becomes
    the failure "Request failed: " + text, any other exception the failure
    "An unexpected error occurred: " + text. *)
Theorem fetch_boundary_total w :
  exists d,
    outcome_of (get_exchange_rate w) = Ret d /\
    rate_result d /\
    (forall text, outcome_of (fetch_body w) = Raise (RequestException text) ->
                  d = failure ("Request failed: " +:+ text)) /\
    (forall e, outcome_of (fetch_body w) = Raise e ->
               is_request_exception e = false ->
               d = failure ("An unexpected error occurred: " +:+ exn_str e)).
Proof.
  destruct (get_exchange_rate_returns w) as (d & Heq & Hshape).
  exists d. split; [now rewrite Heq|]. split; [exact Hshape|].
  split.
  - intros text Hraise.
    pose proof (handled w _ Hraise) as Hh. rewrite Heq in Hh.
    now injection Hh.
  - intros e Hraise Hcls.
    pose proof (handled w _ Hraise) as Hh. rewrite Heq in Hh.
    unfold handler in Hh. rewrite Hcls in Hh. now injection Hh.
Qed.

Lemma failure_shape msg :
  dom (failure msg) = {[ "error" ]} /\ dict_contains (failure msg) "error" = true.
Proof.
  unfold failure, dict_contains. split.
  - apply dom_singleton_L.
  - now rewrite lookup_singleton_eq.
Qed.

Lemma success_shape a b c now :
  dom (success a b c now) = success_keys /\
  dict_contains (success a b c now) "error" = false.
Proof.
  unfold success, success_keys, dict_contains. split.
  - rewrite !dom_insert_L, dom_singleton_L. set_solver.
  - reflexivity.
Qed.

(** C10: every dictionary the routine returns either has "error" as its
    only key, or has exactly the four keys ngn_to_usd, usd_to_ngn,
    last_updated and current_time and no "error"; the presenters' test
    ["error" in result] therefore separates the two. *)
Theorem result_shape w :
  exists d,
    outcome_of (get_exchange_rate w) = Ret d /\
    ((dom d = {[ "error" ]} /\ dict_contains d "error" = true) \/
     (dom d = success_keys /\ dict_contains d "error" = false)).
Proof.
  destruct (get_exchange_rate_returns w) as (d & Heq & Hshape).
  exists d. rewrite Heq. split; [reflexivity|].
  destruct Hshape.
  - left. apply failure_shape.
  - right. apply success_shape.
Qed.

(** *** The three shapes of a run *)

Lemma getitem_pure v key : getitem v key = ([], outcome_of (getitem v key)).
Proof.
  destruct v; try reflexivity. cbn [getitem]. unfold dict_item.
  now destruct (_ !! _).
Qed.

Lemma get_method_pure v key default :
  get_method v key default = ([], outcome_of (get_method v key default)).
Proof. destruct v; try reflexivity. cbn [get_method]. now destruct (_ !! _). Qed.

Lemma true_divide_one_events v :
  true_divide_one v = ([EvTrueDiv v], outcome_of (true_divide_one v)).
Proof.
  unfold true_divide_one.
  destruct v as [|b|n|f| | |]; try reflexivity.
  - now destruct b.
  - now destruct (n =? 0).
  - now destruct (Float64.is_zero f).
Qed.

Lemma true_divide_one_outcome v x :
  outcome_of (true_divide_one v) = Ret x -> real v /\ exists f, x = PyFloat f.
Proof.
  intros H. apply (true_divide_one_ret v [EvTrueDiv v]).
  rewrite true_divide_one_events. now rewrite H.
Qed.

Ltac shape :=
  cbn [try_except bind lift ret raise app]; unfold handler;
  try match goal with
      | |- context [is_request_exception ?e] => destruct (is_request_exception e)
      end;
  cbn [try_except bind lift ret raise app];
  first [ apply RunEarly; reflexivity
        | apply RunDivided; reflexivity
        | apply RunSuccess; assumption ].

Ltac api_error_branch :=
  step; rewrite get_method_pure;
  match goal with
  | |- context [outcome_of ?m] => destruct (outcome_of m)
  end; step; shape.

Lemma get_exchange_rate_shape w : run_shape w (get_exchange_rate w).
Proof.
  unfold get_exchange_rate, fetch_body, requests_get, api_succeeded, datetime_now.
  destruct (http w URL) as [r|e]; step; [|shape].
  destruct (json r) as [data|e]; step; [|shape].
  destruct (status_code r =? 200); [|api_error_branch].
  rewrite (getitem_pure data "result").
  destruct (outcome_of (getitem data "result")) as [res|e]; step; [|shape].
  destruct (eq_str res "success"); [|api_error_branch].
  rewrite (getitem_pure data "rates").
  destruct (outcome_of (getitem data "rates")) as [rates|e]; step; [|shape].
  rewrite get_method_pure.
  destruct (outcome_of (get_method rates "NGN" PyNone)) as [rate|e]; step;
    [|shape].
  destruct (truthy rate); [|shape].
  rewrite true_divide_one_events.
  destruct (outcome_of (true_divide_one rate)) as [q|e] eqn:Hdiv; step; [|shape].
  apply true_divide_one_outcome in Hdiv as [Hreal [f ->]].
  rewrite (getitem_pure data "time_last_update_utc").
  destruct (outcome_of (getitem data "time_last_update_utc")) as [stamp|e];
    step; shape.
Qed.

(** *** The presenters *)

Lemma success_inj a b c n a' b' c' n' :
  success a b c n = success a' b' c' n' -> a = a' /\ b = b' /\ c = c' /\ n = n'.
Proof.
  intros Hsame. unfold success in Hsame.
  assert (H1 := f_equal (fun m => m !! "ngn_to_usd") Hsame).
  assert (H2 := f_equal (fun m => m !! "usd_to_ngn") Hsame).
  assert (H3 := f_equal (fun m => m !! "last_updated") Hsame).
  assert (H4 := f_equal (fun m => m !! "current_time") Hsame).
  cbn beta in *. simplify_map_eq. auto.
Qed.

Lemma Ret_inj {A} (a b : A) : Ret a = Ret b -> a = b.
Proof. now intros [= ->]. Qed.

Lemma failure_inj msg msg' : failure msg = failure msg' -> msg = msg'.
Proof.
  intros Hsame.
  assert (Hl := f_equal (fun m => m !! "error") Hsame). cbn beta in Hl.
  unfold failure in Hl. rewrite !lookup_singleton_eq in Hl. congruence.
Qed.

Lemma failure_not_success msg a b c n : failure msg <> success a b c n.
Proof.
  intros Hsame.
  assert (Hl := f_equal (fun m => m !! "error") Hsame). cbn beta in Hl.
  unfold failure, success in Hl. simplify_map_eq.
Qed.

Lemma ascii7_paragraph cls text :
  ascii7 cls = true -> ascii7 text = true -> ascii7 (paragraph cls text) = true.
Proof.
  intros Hcls Htext. unfold paragraph. now rewrite !ascii7_app, Hcls, Htext.
Qed.

Lemma has_surrogate_paragraph cls text :
  ascii7 cls = true -> has_surrogate (paragraph cls text) = has_surrogate text.
Proof.
  intros Hcls. unfold paragraph.
  repeat (rewrite has_surrogate_after_ascii by (reflexivity || assumption)).
  now rewrite has_surrogate_before_ascii.
Qed.

Lemma has_surrogate_error_page msg :
  has_surrogate (error_page msg) = has_surrogate msg.
Proof.
  unfold error_page.
  rewrite (has_surrogate_after_ascii template_head) by reflexivity.
  rewrite (has_surrogate_before_ascii _ (block_end +:+ template_tail)) by reflexivity.
  now rewrite has_surrogate_paragraph, has_surrogate_escape.
Qed.

Lemma has_surrogate_rates_page f x stamp now :
  ascii7 now = true ->
  has_surrogate (rates_page f x stamp now) = has_surrogate (py_str stamp).
Proof.
  intros Hnow. unfold rates_page.
  rewrite (has_surrogate_after_ascii template_head) by reflexivity.
  rewrite (has_surrogate_before_ascii _ (block_end +:+ template_tail)) by reflexivity.
  rewrite (has_surrogate_after_ascii (paragraph "rate" _))
    by (apply ascii7_paragraph; [reflexivity|];
        now rewrite !ascii7_app, ascii7_escape by apply ascii7_float_fixed).
  rewrite (has_surrogate_after_ascii (paragraph "rate" _))
    by (apply ascii7_paragraph; [reflexivity|];
        now rewrite !ascii7_app, ascii7_escape by apply ascii7_float_fixed).
  rewrite (has_surrogate_before_ascii _ (paragraph "info" ("Current Time: " +:+ _)))
    by (apply ascii7_paragraph; [reflexivity|];
        now rewrite ascii7_app, ascii7_escape).
  rewrite has_surrogate_paragraph by reflexivity.
  rewrite (has_surrogate_after_ascii "Last Updated: ") by reflexivity.
  apply has_surrogate_escape.
Qed.

Lemma print_encodable text :
  has_surrogate text = false -> print text = ([EvPrint text], Ret tt).
Proof. unfold print. now intros ->. Qed.

Lemma stdout_fetch w : stdout (trace (get_exchange_rate w)) = "".
Proof. now destruct (get_exchange_rate_shape w). Qed.

Lemma handle_get_index w :
  handle_get w "/" =
    (trace (index w),
     match outcome_of (index w) with
     | Ret body => make_response body
     | Raise e => InternalServerError500 e
     end).
Proof.
  unfold handle_get, url_map, find_view. cbn [String.eqb Ascii.eqb Bool.eqb].
  now destruct (index w) as [t [body|e]].
Qed.

Lemma real_fits v :
  real v -> fits_float v -> exists x, as_float v = Some (Ret x).
Proof.
  unfold real, fits_float. destruct (as_float v) as [[x|e]|]; intros Hr Hf;
    [eauto | contradiction | contradiction].
Qed.

Lemma index_failure w t msg :
  get_exchange_rate w = (t, Ret (failure msg)) ->
  truthy (PyStr msg) = true ->
  outcome_of (index w) = Ret (error_page msg).
Proof.
  intros Heq Hmsg. unfold index. rewrite Heq.
  destruct (failure_shape msg) as [_ Hin].
  cbn [bind]. rewrite Hin. unfold dict_item, failure.
  rewrite lookup_singleton_eq. cbn [bind ret].
  unfold render_template_string, test, variable.
  rewrite !lookup_singleton_eq, Hmsg. reflexivity.
Qed.

Lemma index_success w t f rate stamp now o :
  get_exchange_rate w = (t, Ret (success (PyFloat f) rate stamp now)) ->
  as_float rate = Some o ->
  outcome_of (index w) =
    match o with
    | Ret x => Ret (rates_page f x stamp now)
    | Raise e => Raise e
    end.
Proof.
  intros Heq Hrate. unfold index. rewrite Heq.
  destruct (success_shape (PyFloat f) rate stamp now) as [_ Hin].
  cbn [bind]. rewrite Hin. unfold dict_item, success.
  simplify_map_eq. cbn [ret bind].
  unfold render_template_string, test, variable, format_filter.
  simplify_map_eq. unfold percent_f. rewrite Hrate.
  destruct o; reflexivity.
Qed.

(** C9, amended: for every failure of the fetch, and for every success
    whose rate converts to a float, provided the text the page shows (the
    message, the update time) holds no lone surrogate, GET / is answered
    with status 200; on a failure the body is the page whose error
    paragraph holds the HTML-escaped message. *)
Theorem index_status w d :
  outcome_of (get_exchange_rate w) = Ret d ->
  renders d ->
  encodes d ->
  exists body,
    snd (handle_get w "/") = Ok200 body /\
    (forall msg, d = failure msg -> body = error_page msg).
Proof.
  intros Hd Hfit Henc. rewrite handle_get_index. cbn [snd].
  destruct (get_exchange_rate w) as [t o] eqn:Heq.
  pose proof (get_exchange_rate_shape w) as Hshape. rewrite Heq in Hshape.
  cbn in Hd. subst o.
  inversion Hshape as [msg Hmsg | v msg Hmsg | f rate stamp Hreal]; subst.
  - rewrite (index_failure _ _ _ Heq Hmsg). unfold make_response.
    assert (Hm : has_surrogate msg = false)
      by (apply (Henc (PyStr msg)); left; unfold failure;
          now rewrite lookup_singleton_eq).
    rewrite has_surrogate_error_page, Hm.
    exists (error_page msg). split; [reflexivity|].
    now intros msg' <-%failure_inj.
  - rewrite (index_failure _ _ _ Heq Hmsg). unfold make_response.
    assert (Hm : has_surrogate msg = false)
      by (apply (Henc (PyStr msg)); left; unfold failure;
          now rewrite lookup_singleton_eq).
    rewrite has_surrogate_error_page, Hm.
    exists (error_page msg). split; [reflexivity|].
    now intros msg' <-%failure_inj.
  - destruct (real_fits rate Hreal) as [x Hx].
    { apply Hfit. unfold success. now simplify_map_eq. }
    rewrite (index_success _ _ _ _ _ _ _ Heq Hx). unfold make_response.
    rewrite has_surrogate_rates_page, (Henc stamp)
      by (apply ascii7_strftime || (right; unfold success; now simplify_map_eq)).
    exists (rates_page f x stamp (strftime (clock w))). split; [reflexivity|].
    intros msg Hsame. symmetry in Hsame. now apply failure_not_success in Hsame.
Qed.

(** The request is the first effect of every fetch; a division and a
    reading of the clock may follow, and nothing is printed. *)
Lemma append_assoc (s1 s2 s3 : string) :
  (s1 +:+ s2) +:+ s3 = s1 +:+ (s2 +:+ s3).
Proof.
  induction s1 as [|c s1 IH]; [reflexivity|].
  change (String c ((s1 +:+ s2) +:+ s3) = String c (s1 +:+ (s2 +:+ s3))).
  now rewrite IH.
Qed.

Lemma stdout_app t1 t2 : stdout (t1 ++ t2) = stdout t1 +:+ stdout t2.
Proof.
  induction t1 as [|ev t1 IH]; [reflexivity|].
  destruct ev; cbn [app stdout]; rewrite IH; try reflexivity.
  now rewrite !append_assoc.
Qed.

Lemma trace_bind {A B} (m : M A) (k : A -> M B) :
  trace (bind m k) =
    trace m ++ match outcome_of m with
               | Ret a => trace (k a)
               | Raise _ => []
               end.
Proof.
  destruct m as [t [a|e]]; cbn [bind trace outcome_of fst snd].
  - now destruct (k a).
  - now rewrite app_nil_r.
Qed.

Lemma bind_quiet {A B} (m : M A) (k : A -> M B) :
  quiet m -> (forall a, quiet (k a)) -> quiet (bind m k).
Proof.
  unfold quiet. intros Hm Hk. rewrite trace_bind, stdout_app, Hm.
  destruct (outcome_of m); [apply Hk | reflexivity].
Qed.

Lemma getitem_quiet v key : quiet (getitem v key).
Proof.
  destruct v; try reflexivity. cbn [getitem]. unfold dict_item.
  now destruct (_ !! _).
Qed.

Lemma get_method_quiet v key default : quiet (get_method v key default).
Proof. destruct v; try reflexivity. cbn [get_method]. now destruct (_ !! _). Qed.

Lemma true_divide_one_quiet v : quiet (true_divide_one v).
Proof.
  unfold true_divide_one. apply bind_quiet; [reflexivity|]. intros _.
  destruct v as [|b|n|f| | |]; try reflexivity.
  - now destruct b.
  - now destruct (n =? 0).
  - now destruct (Float64.is_zero f).
Qed.

Ltac quiet_step :=
  first [ apply getitem_quiet
        | apply get_method_quiet
        | apply true_divide_one_quiet
        | apply bind_quiet; [|intros]
        | reflexivity
        | match goal with
          | |- quiet (if ?b then _ else _) => destruct b
          end ].

Lemma fetch_body_quiet w : quiet (fetch_body w).
Proof.
  unfold fetch_body, requests_get, api_succeeded, datetime_now.
  repeat quiet_step.
Qed.

Lemma fetch_body_requests w : In (EvHttpGet URL) (trace (fetch_body w)).
Proof.
  unfold fetch_body, requests_get. rewrite !trace_bind.
  cbn [trace emit fst app]. now left.
Qed.

Lemma main_failure w t msg :
  get_exchange_rate w = (t, Ret (failure msg)) ->
  has_surrogate msg = false ->
  main w = (fetching :: t ++ failure_lines msg, Ret tt).
Proof.
  intros Heq Henc. unfold main.
  rewrite (print_encodable (_ +:+ newline)) by reflexivity.
  cbn [bind]. rewrite Heq.
  destruct (failure_shape msg) as [_ Hin].
  cbn [bind]. rewrite Hin. unfold dict_item, failure.
  rewrite lookup_singleton_eq. cbn [bind ret py_str].
  rewrite print_encodable
    by now rewrite (has_surrogate_after_ascii "Error: ") by reflexivity.
  reflexivity.
Qed.

Lemma bind_events {A B} t (a : A) (k : A -> M B) :
  bind (t, Ret a) k = (t ++ trace (k a), outcome_of (k a)).
Proof. cbn [bind]. now destruct (k a). Qed.

Lemma bind_ret {A B} (a : A) (k : A -> M B) : bind (ret a) k = k a.
Proof. unfold ret. cbn [bind]. now destruct (k a). Qed.

Lemma success_lookup a b c n :
  success a b c n !! "ngn_to_usd" = Some a /\
  success a b c n !! "usd_to_ngn" = Some b /\
  success a b c n !! "last_updated" = Some c /\
  success a b c n !! "current_time" = Some (PyStr n).
Proof. unfold success. repeat split; now simplify_map_eq. Qed.

Lemma format_f_float d f : format_f d (PyFloat f) = ret (float_fixed d f).
Proof. reflexivity. Qed.

Lemma main_rate_lines w t f rate stamp now :
  get_exchange_rate w = (t, Ret (success (PyFloat f) rate stamp now)) ->
  main w =
    (fetching :: t ++ [EvPrint "Current Exchange Rates:";
                       EvPrint ("1 NGN = " +:+ float_fixed 6 f +:+ " USD")] ++
                 trace (second_half rate stamp now),
     outcome_of (second_half rate stamp now)).
Proof.
  intros Heq. unfold main.
  rewrite (print_encodable (_ +:+ newline)) by reflexivity.
  rewrite bind_events, Heq, bind_events.
  destruct (success_shape (PyFloat f) rate stamp now) as [_ Hin].
  destruct (success_lookup (PyFloat f) rate stamp now) as (H1 & H2 & H3 & H4).
  rewrite Hin. unfold dict_item. rewrite H1, H2, H3, H4.
  rewrite (print_encodable "Current Exchange Rates:") by reflexivity.
  rewrite bind_events, !bind_ret, format_f_float, bind_ret.
  rewrite (print_encodable ("1 NGN = " +:+ _))
    by (apply ascii7_no_surrogate; now rewrite !ascii7_app, ascii7_float_fixed).
  rewrite bind_events.
  reflexivity.
Qed.

Lemma main_success w t f rate stamp now x :
  get_exchange_rate w = (t, Ret (success (PyFloat f) rate stamp now)) ->
  as_float rate = Some (Ret x) ->
  has_surrogate (py_str stamp) = false ->
  ascii7 now = true ->
  main w = (fetching :: t ++ rates_lines f x stamp now, Ret tt).
Proof.
  intros Heq Hrate Henc Hnow. rewrite (main_rate_lines _ _ _ _ _ _ Heq).
  unfold second_half, format_f. rewrite Hrate. cbn [bind lift ret].
  rewrite (print_encodable ("1 USD = " +:+ _))
    by (apply ascii7_no_surrogate; now rewrite !ascii7_app, ascii7_float_fixed).
  cbn [bind].
  rewrite (print_encodable (newline +:+ _))
    by now rewrite (has_surrogate_after_ascii newline),
                   (has_surrogate_after_ascii "Last Updated: ") by reflexivity.
  cbn [bind].
  rewrite (print_encodable ("Current Time: " +:+ _))
    by (apply ascii7_no_surrogate; now rewrite ascii7_app, Hnow).
  reflexivity.
Qed.

(** C2, amended: [main], the command-line display, prints the banner,
    calls the routine once (its effects are the banner, those of one call,
    and the lines below) and, when the rate converts to a float and the
    text to print holds no lone surrogate, returns normally: on a failure
    it prints "Error: {message}", on a success the heading, the two rate
    lines at 6 and 2 decimals and the two timestamps.  The script entry
    point does not call [main]. *)
Theorem main_display w d :
  outcome_of (get_exchange_rate w) = Ret d ->
  renders d ->
  encodes d ->
  outcome_of (main w) = Ret tt /\
  (forall msg, d = failure msg ->
     trace (main w) = fetching :: trace (get_exchange_rate w) ++ failure_lines msg /\
     stdout (trace (main w)) = failure_report msg) /\
  (forall f rate stamp now x,
      d = success (PyFloat f) rate stamp now ->
      as_float rate = Some (Ret x) ->
      trace (main w) =
        fetching :: trace (get_exchange_rate w) ++ rates_lines f x stamp now /\
      stdout (trace (main w)) = rates_report f x stamp now).
Proof.
  intros Hd Hfit Henc.
  pose proof (stdout_fetch w) as Hquiet.
  destruct (get_exchange_rate w) as [t o] eqn:Heq.
  pose proof (get_exchange_rate_shape w) as Hshape. rewrite Heq in Hshape.
  cbn in Hd. subst o. cbn [trace fst] in *.
  assert (Hcases :
    (exists msg, d = failure msg /\ has_surrogate msg = false) \/
    (exists f rate stamp x,
        d = success (PyFloat f) rate stamp (strftime (clock w)) /\
        as_float rate = Some (Ret x) /\ has_surrogate (py_str stamp) = false)).
  { inversion Hshape as [msg Hmsg | v msg Hmsg | f rate stamp Hreal]; subst.
    - left. exists msg. split; [reflexivity|]. apply (Henc (PyStr msg)).
      left. unfold failure. now rewrite lookup_singleton_eq.
    - left. exists msg. split; [reflexivity|]. apply (Henc (PyStr msg)).
      left. unfold failure. now rewrite lookup_singleton_eq.
    - right. destruct (real_fits rate Hreal) as [x Hx].
      { apply Hfit. unfold success. now simplify_map_eq. }
      exists f, rate, stamp, x. split; [reflexivity|]. split; [exact Hx|].
      apply Henc. right. unfold success. now simplify_map_eq. }
  destruct Hcases as [(msg & -> & Hmsg) | (f & rate & stamp & x & -> & Hx & Hstamp)].
  - rewrite (main_failure _ _ _ Heq Hmsg). cbn [outcome_of trace fst snd].
    split; [reflexivity|]. split.
    + intros msg' <-%failure_inj. split; [reflexivity|].
      unfold fetching, failure_lines, failure_report, banner.
      cbn [stdout app]. rewrite stdout_app, Hquiet.
      cbn [stdout]. now rewrite !append_assoc.
    + intros f rate stamp now x Hsame. now apply failure_not_success in Hsame.
  - rewrite (main_success _ _ _ _ _ _ _ Heq Hx Hstamp (ascii7_strftime _)).
    cbn [outcome_of trace fst snd].
    split; [reflexivity|]. split.
    + intros msg Hsame. symmetry in Hsame. now apply failure_not_success in Hsame.
    + intros f' rate' stamp' now' x' (Hf & <- & <- & <-)%success_inj Hx'.
      injection Hf as <-. rewrite Hx in Hx'. injection Hx' as <-. split; [reflexivity|].
      unfold fetching, rates_lines, rates_report, banner.
      cbn [stdout app]. rewrite stdout_app, Hquiet.
      cbn [stdout]. now rewrite !append_assoc.
Qed.

(** C1 (not met by the code): the route table holds the single rule "/",
    so a GET of "/health" matches no rule and Flask answers 404 without
    running a view, where the sentence and the test suite expect 200 with
    body "OK". *)
Theorem health_not_routed w : handle_get w "/health" = ([], NotFound404).
Proof. reflexivity. Qed.

(** *** Further behaviour of [get_exchange_rate] *)

Lemma nonzero_number_truthy v : nonzero_number v -> truthy v = true.
Proof.
  destruct v as [| |n|f| | |]; simpl; try contradiction.
  - intros H. now apply negb_true_iff, Z.eqb_neq.
  - now intros ->.
Qed.

Lemma nonzero_number_divide v :
  nonzero_number v ->
  true_divide_one v = ([EvTrueDiv v], Ret (PyFloat (inverse_rate v))).
Proof.
  destruct v as [| |n|f| | |]; simpl; try contradiction; intros H;
    unfold true_divide_one.
  - apply Z.eqb_neq in H. now rewrite H.
  - now rewrite H.
Qed.

(** X1: a falsy "NGN" entry of any type (null, false, 0, 0.0, the empty
    string, list or object) is reported as a missing rate, and nothing is
    divided. *)
Theorem falsy_rate_not_found w r d rates rate :
  http w URL = Ret r ->
  status_code r = 200 ->
  json r = Ret (PyDict d) ->
  d !! "result" = Some (PyStr "success") ->
  d !! "rates" = Some (PyDict rates) ->
  rates !! "NGN" = Some rate ->
  truthy rate = false ->
  get_exchange_rate w =
    ([EvHttpGet URL], Ret (failure "NGN rate not found in the response")).
Proof.
  intros Hget Hst Hjs Hres Hrates Hngn Hfalsy.
  unfold get_exchange_rate, fetch_body, requests_get, api_succeeded.
  rewrite Hget. run. rewrite Hjs, Hst. run.
  rewrite Hres. run. rewrite Hrates. run. rewrite Hngn. run.
  now rewrite Hfalsy.
Qed.

(** X2: a truthy "NGN" entry that is not a number (a non-empty string, list
    or object) reaches the division, whose TypeError the catch-all handler
    reports; the clock is not read. *)
Theorem non_numeric_rate w r d rates rate :
  http w URL = Ret r ->
  status_code r = 200 ->
  json r = Ret (PyDict d) ->
  d !! "result" = Some (PyStr "success") ->
  d !! "rates" = Some (PyDict rates) ->
  rates !! "NGN" = Some rate ->
  truthy rate = true ->
  as_float rate = None ->
  get_exchange_rate w =
    ([EvHttpGet URL; EvTrueDiv rate],
     Ret (failure ("An unexpected error occurred: " +:+
                   "unsupported operand type(s) for /: 'int' and '" +:+
                   type_name rate +:+ "'"))).
Proof.
  intros Hget Hst Hjs Hres Hrates Hngn Htruthy Hreal.
  unfold get_exchange_rate, fetch_body, requests_get, api_succeeded.
  rewrite Hget. run. rewrite Hjs, Hst. run.
  rewrite Hres. run. rewrite Hrates. run. rewrite Hngn. run.
  rewrite Htruthy.
  destruct rate as [|b|n|f|s|l|m]; try discriminate Hreal; reflexivity.
Qed.

(** X3: the routine checks neither sign nor finiteness: every "NGN" entry
    that is a number other than zero (negative, infinite and NaN included)
    gives a success with ngn_to_usd = 1/r and usd_to_ngn = r. *)
Theorem nonzero_rate_accepted w r d rates rate last_updated :
  http w URL = Ret r ->
  status_code r = 200 ->
  json r = Ret (PyDict d) ->
  d !! "result" = Some (PyStr "success") ->
  d !! "rates" = Some (PyDict rates) ->
  rates !! "NGN" = Some rate ->
  nonzero_number rate ->
  d !! "time_last_update_utc" = Some last_updated ->
  get_exchange_rate w =
    ([EvHttpGet URL; EvTrueDiv rate; EvClock],
     Ret (success (PyFloat (inverse_rate rate)) rate last_updated
            (strftime (clock w)))).
Proof.
  intros Hget Hst Hjs Hres Hrates Hngn Hnum Hstamp.
  unfold get_exchange_rate, fetch_body, requests_get, api_succeeded.
  rewrite Hget. run. rewrite Hjs, Hst. run.
  rewrite Hres. run. rewrite Hrates. run. rewrite Hngn. run.
  rewrite (nonzero_number_truthy _ Hnum), (nonzero_number_divide _ Hnum). run.
  rewrite Hstamp. run. reflexivity.
Qed.

(** X4: a document with a usable rate and no "time_last_update_utc" entry
    fails on line 28, after the division and before the clock is read; the
    catch-all handler reports the KeyError. *)
Theorem missing_update_time w r d rates rate :
  http w URL = Ret r ->
  status_code r = 200 ->
  json r = Ret (PyDict d) ->
  d !! "result" = Some (PyStr "success") ->
  d !! "rates" = Some (PyDict rates) ->
  rates !! "NGN" = Some rate ->
  nonzero_number rate ->
  d !! "time_last_update_utc" = None ->
  get_exchange_rate w =
    ([EvHttpGet URL; EvTrueDiv rate],
     Ret (failure "An unexpected error occurred: 'time_last_update_utc'")).
Proof.
  intros Hget Hst Hjs Hres Hrates Hngn Hnum Hstamp.
  unfold get_exchange_rate, fetch_body, requests_get, api_succeeded.
  rewrite Hget. run. rewrite Hjs, Hst. run.
  rewrite Hres. run. rewrite Hrates. run. rewrite Hngn. run.
  rewrite (nonzero_number_truthy _ Hnum), (nonzero_number_divide _ Hnum). run.
  rewrite Hstamp. reflexivity.
Qed.

(** X5: with status 200, a document without a "result" entry is not an API
    error: line 18 raises KeyError, reported by the catch-all handler. *)
Theorem missing_result w r d :
  http w URL = Ret r ->
  status_code r = 200 ->
  json r = Ret (PyDict d) ->
  d !! "result" = None ->
  get_exchange_rate w =
    ([EvHttpGet URL], Ret (failure "An unexpected error occurred: 'result'")).
Proof.
  intros Hget Hst Hjs Hres.
  unfold get_exchange_rate, fetch_body, requests_get, api_succeeded.
  rewrite Hget. run. rewrite Hjs, Hst. run. rewrite Hres. reflexivity.
Qed.

(** X6: a successful document without a "rates" entry makes line 20 raise
    KeyError, reported by the catch-all handler. *)
Theorem missing_rates w r d :
  http w URL = Ret r ->
  status_code r = 200 ->
  json r = Ret (PyDict d) ->
  d !! "result" = Some (PyStr "success") ->
  d !! "rates" = None ->
  get_exchange_rate w =
    ([EvHttpGet URL], Ret (failure "An unexpected error occurred: 'rates'")).
Proof.
  intros Hget Hst Hjs Hres Hrates.
  unfold get_exchange_rate, fetch_body, requests_get, api_succeeded.
  rewrite Hget. run. rewrite Hjs, Hst. run. rewrite Hres. run.
  rewrite Hrates. reflexivity.
Qed.

(** X7: a "rates" entry that is not an object has no [get]: the
    AttributeError of line 20 is reported by the catch-all handler. *)
Theorem rates_not_a_mapping w r d rates :
  http w URL = Ret r ->
  status_code r = 200 ->
  json r = Ret (PyDict d) ->
  d !! "result" = Some (PyStr "success") ->
  d !! "rates" = Some rates ->
  (forall m, rates <> PyDict m) ->
  get_exchange_rate w =
    ([EvHttpGet URL],
     Ret (failure ("An unexpected error occurred: '" +:+ type_name rates +:+
                   "' object has no attribute 'get'"))).
Proof.
  intros Hget Hst Hjs Hres Hrates Hnot.
  unfold get_exchange_rate, fetch_body, requests_get, api_succeeded.
  rewrite Hget. run. rewrite Hjs, Hst. run. rewrite Hres. run.
  rewrite Hrates. run.
  destruct rates as [| | | | | |m]; try reflexivity.
  now destruct (Hnot m).
Qed.

(** X8: the body is parsed before the status is looked at: when
    [response.json()] raises, the run ends in the failure of the handler
    that takes the exception, whatever the status code. *)
Theorem body_not_json w r e :
  http w URL = Ret r ->
  json r = Raise e ->
  get_exchange_rate w = ([EvHttpGet URL], Ret (failure (handled_message e))).
Proof.
  intros Hget Hjs.
  unfold get_exchange_rate, fetch_body, requests_get, handled_message.
  rewrite Hget. run. rewrite Hjs. run. unfold handler.
  now destruct (is_request_exception e).
Qed.

(** X9: a parsed body that is not an object (a list, a string, a number,
    null) is never an API error or a success: with any status the run ends
    in the catch-all failure. *)
Theorem document_not_a_mapping w r data :
  http w URL = Ret r ->
  json r = Ret data ->
  (forall d, data <> PyDict d) ->
  exists text,
    get_exchange_rate w =
      ([EvHttpGet URL], Ret (failure ("An unexpected error occurred: " +:+ text))).
Proof.
  intros Hget Hjs Hnot.
  unfold get_exchange_rate, fetch_body, requests_get, api_succeeded.
  rewrite Hget. run. rewrite Hjs. run.
  destruct data as [| | | | | |d]; [| | | | | |now destruct (Hnot d)];
    destruct (status_code r =? 200); eexists; reflexivity.
Qed.

(** *** The effects of a run *)

(** X10: every call performs exactly one HTTP request, to the fixed URL and
    before anything else; what may follow is the division and the reading
    of the clock: no second request (no retry), no output. *)
Theorem one_request w :
  exists rest,
    trace (get_exchange_rate w) = EvHttpGet URL :: rest /\ Forall internal rest.
Proof.
  destruct (get_exchange_rate_shape w); eexists; (split; [reflexivity|]);
    repeat constructor.
Qed.

(** X11: the clock is read exactly in the runs that end in a success. *)
Theorem clock_read_on_success w :
  In EvClock (trace (get_exchange_rate w)) <->
  exists d, outcome_of (get_exchange_rate w) = Ret d /\
            dict_contains d "error" = false.
Proof.
  destruct (get_exchange_rate_shape w) as [msg Hmsg | v msg Hmsg | f v stamp Hv];
    cbn [trace outcome_of fst snd]; split.
  - intros [H|[]]. discriminate H.
  - intros (d & [= <-] & Hd). now rewrite (proj2 (failure_shape msg)) in Hd.
  - intros [H|[H|[]]]; discriminate H.
  - intros (d & [= <-] & Hd). now rewrite (proj2 (failure_shape msg)) in Hd.
  - intros _. eexists. split; [reflexivity | apply success_shape].
  - intros _. right. right. now left.
Qed.

(** X12: the "error" entry of a result is always a non-empty string, so
    the template's [{% if error %}] and the view's ["error" in result]
    agree on every result. *)
Theorem error_entry_truthy w :
  exists d,
    outcome_of (get_exchange_rate w) = Ret d /\
    (forall v, d !! "error" = Some v ->
               (exists msg, v = PyStr msg) /\ test {[ "error" := v ]} "error" = true).
Proof.
  destruct (get_exchange_rate_returns w) as (d & Heq & Hshape).
  exists d. split; [now rewrite Heq|].
  intros v Hv. unfold test. rewrite lookup_singleton_eq.
  destruct Hshape as [msg Hmsg | f rate stamp now Hreal].
  - unfold failure in Hv. rewrite lookup_singleton_eq in Hv.
    injection Hv as <-. eauto.
  - unfold success in Hv. simplify_map_eq.
Qed.

(** X13: every success carries a float under ngn_to_usd (also when the
    upstream rate is an int or a bool), a number under usd_to_ngn, and the
    formatted reading of the clock under current_time. *)
Theorem success_entries w :
  exists d,
    outcome_of (get_exchange_rate w) = Ret d /\
    (dict_contains d "error" = false ->
     (exists f, d !! "ngn_to_usd" = Some (PyFloat f)) /\
     (exists v, d !! "usd_to_ngn" = Some v /\ real v) /\
     d !! "current_time" = Some (PyStr (strftime (clock w)))).
Proof.
  destruct (get_exchange_rate_shape w) as [msg Hmsg | v msg Hmsg | f v stamp Hv];
    cbn [outcome_of snd]; eexists; (split; [reflexivity|]); intros Hd.
  - now rewrite (proj2 (failure_shape msg)) in Hd.
  - now rewrite (proj2 (failure_shape msg)) in Hd.
  - unfold success. split; [|split].
    + eexists. now simplify_map_eq.
    + exists v. split; [now simplify_map_eq | exact Hv].
    + now simplify_map_eq.
Qed.

(** *** Further behaviour of the presenters *)

Lemma as_float_raises v e :
  as_float v = Some (Raise e) ->
  e = OverflowError "int too large to convert to float".
Proof.
  destruct v as [|b|n|f| | |]; cbn [as_float]; try discriminate.
  - destruct (Float64.is_finite _); now intros [= <-].
  - destruct (Float64.is_finite _); now intros [= <-].
Qed.

(** X14: on a success whose rate converts to the float x and whose update
    time holds no lone surrogate, GET / is answered with the page of the
    two rate lines, ngn_to_usd at six decimals and x at two, and the two
    timestamps, HTML-escaped. *)
Theorem index_rates_page w f rate last_updated now x :
  outcome_of (get_exchange_rate w) = Ret (success (PyFloat f) rate last_updated now) ->
  as_float rate = Some (Ret x) ->
  has_surrogate (py_str last_updated) = false ->
  snd (handle_get w "/") = Ok200 (rates_page f x last_updated now).
Proof.
  intros Hd Hx Henc.
  pose proof (get_exchange_rate_shape w) as Hshape.
  rewrite handle_get_index. cbn [snd].
  remember (get_exchange_rate w) as m eqn:Heq. symmetry in Heq.
  destruct Hshape as [msg Hmsg | v msg Hmsg | f' v stamp Hv];
    cbn [outcome_of snd] in Hd; apply Ret_inj in Hd;
    [now apply failure_not_success in Hd..|].
  apply success_inj in Hd as (Hf & -> & -> & <-). injection Hf as ->.
  rewrite (index_success _ _ _ _ _ _ _ Heq Hx). unfold make_response.
  now rewrite has_surrogate_rates_page, Henc by apply ascii7_strftime.
Qed.

(** X15: the view has two ways to fail.  For every upstream answer GET /
    is answered with 200, or with 500 caused by the OverflowError of
    formatting an integer rate beyond the float range, or with 500 caused
    by the UnicodeEncodeError of a rendered page that holds a lone
    surrogate and has no UTF-8 encoding. *)
Theorem index_outcomes w :
  (exists body, snd (handle_get w "/") = Ok200 body) \/
  snd (handle_get w "/") =
    InternalServerError500 (OverflowError "int too large to convert to float") \/
  (exists body,
     outcome_of (index w) = Ret body /\ has_surrogate body = true /\
     snd (handle_get w "/") =
       InternalServerError500 (UnicodeEncodeError (encode_error_text body))).
Proof.
  rewrite handle_get_index. cbn [snd].
  destruct (outcome_of (index w)) as [body|e] eqn:Hix.
  - unfold make_response. destruct (has_surrogate body) eqn:Hbody.
    + right. right. exists body. auto.
    + left. eauto.
  - right. left.
    destruct (get_exchange_rate_returns w) as (d & Heq & Hshape).
    destruct Hshape as [msg Hmsg | f rate stamp now Hreal].
    + rewrite (index_failure _ _ _ Heq Hmsg) in Hix. discriminate Hix.
    + unfold real in Hreal. destruct (as_float rate) as [[x|e']|] eqn:Hrate;
        [| |contradiction].
      * rewrite (index_success _ _ _ _ _ _ _ Heq Hrate) in Hix. discriminate Hix.
      * rewrite (index_success _ _ _ _ _ _ _ Heq Hrate) in Hix.
        injection Hix as <-. now rewrite (as_float_raises _ _ Hrate).
Qed.

(** X16: on a success whose integer rate is beyond the float range, [main]
    raises the OverflowError after it has printed the banner, the heading
    and the first rate line. *)
Theorem main_overflow w f rate last_updated now e :
  outcome_of (get_exchange_rate w) = Ret (success (PyFloat f) rate last_updated now) ->
  as_float rate = Some (Raise e) ->
  outcome_of (main w) = Raise e /\
  stdout (trace (main w)) = partial_report f.
Proof.
  intros Hd He.
  pose proof (stdout_fetch w) as Hquiet.
  destruct (get_exchange_rate w) as [t o] eqn:Heq.
  cbn in Hd. subst o. cbn [trace fst] in Hquiet.
  rewrite (main_rate_lines _ _ _ _ _ _ Heq).
  unfold second_half, format_f. rewrite He. cbn [bind lift outcome_of trace fst snd].
  split; [reflexivity|].
  unfold fetching, partial_report, banner.
  cbn [stdout app]. rewrite stdout_app, Hquiet.
  cbn [stdout]. now rewrite !append_assoc.
Qed.

Lemma bind_effect_free {A B} (m : M A) (k : A -> M B) :
  effect_free m -> (forall a, effect_free (k a)) -> effect_free (bind m k).
Proof.
  unfold effect_free. intros Hm Hk. rewrite trace_bind, Hm.
  destruct (outcome_of m); [apply Hk | reflexivity].
Qed.

Lemma dict_item_effect_free d key : effect_free (dict_item d key).
Proof. unfold dict_item. now destruct (d !! key). Qed.

Lemma percent_f_effect_free d v : effect_free (percent_f d v).
Proof. unfold percent_f. now destruct (as_float v) as [[x|e]|]. Qed.

Lemma render_effect_free ctx : effect_free (render_template_string ctx).
Proof.
  unfold render_template_string, format_filter.
  apply bind_effect_free; [|reflexivity].
  destruct (test ctx "error"); [reflexivity|].
  repeat (apply bind_effect_free; [|intros]);
    repeat match goal with
           | |- effect_free (match ?o with _ => _ end) => destruct o
           end;
    first [ reflexivity
          | apply bind_effect_free; [apply percent_f_effect_free | reflexivity] ].
Qed.

(** X17: serving GET / performs the effects of one call of the routine and
    no other: one upstream request per page view, nothing cached, nothing
    printed. *)
Theorem index_effects w :
  fst (handle_get w "/") = trace (get_exchange_rate w).
Proof.
  rewrite handle_get_index. cbn [fst]. unfold index.
  rewrite trace_bind.
  destruct (outcome_of (get_exchange_rate w)) as [d|e]; [|apply app_nil_r].
  rewrite <- app_nil_r. f_equal.
  destruct (dict_contains d "error");
    repeat first [ apply render_effect_free
                 | apply dict_item_effect_free
                 | apply bind_effect_free; [|intros] ].
Qed.

End App.

(** ** Concrete runs *)

Example float_fixed_rate_1500 :
  float_fixed 6 (Float64.div Float64.one (Float64.of_int 1500)) = "0.000667"
  /\ float_fixed 2 (Float64.of_int 1500) = "1500.00".
Proof. split; vm_compute; reflexivity. Qed.

Example float_fixed_ties :
  float_fixed 2 (Float64.div Float64.one (Float64.of_int 8)) = "0.12"
  /\ float_fixed 2 (Float64.div (Float64.of_int 3) (Float64.of_int 8)) = "0.38"
  /\ float_fixed 2 (Float64.div (Float64.of_int (-1)) (Float64.of_int 1000)) = "-0.00".
Proof. repeat split; vm_compute; reflexivity. Qed.

(** The double nearest to 0.001, [0x1.0624dd2f1a9fcp-10]. *)
Example inverse_of_thousand :
  inverse_rate thousand = S754_finite false 4611686018427388 (-62)
  /\ inverse_rate (PyInt 1000) = inverse_rate thousand.
Proof. split; vm_compute; reflexivity. Qed.

(** C4 at the test suite's document with NGN = 1000.0. *)
Lemma success_response_witness :
  get_exchange_rate sample_repr (serving (answering 200 (document (ngn thousand)))) =
    ([EvHttpGet URL; EvTrueDiv thousand; EvClock],
     Ret (success (PyFloat (inverse_rate thousand)) thousand stamp
            "2026-01-02 12:30:00")).
Proof.
  apply (success_response sample_repr
           (serving (answering 200 (document (ngn thousand))))
           (answering 200 (document (ngn thousand)))
           (document (ngn thousand)) (ngn thousand) thousand stamp);
    reflexivity.
Defined.

(** C5 at a rates mapping that holds EUR only. *)
Lemma missing_ngn_rate_witness :
  get_exchange_rate sample_repr
    (serving (answering 200 (document {[ "EUR" := PyFloat (Float64.int_true_divide 9 10) ]}))) =
    ([EvHttpGet URL], Ret (failure "NGN rate not found in the response")).
Proof.
  apply (missing_ngn_rate sample_repr _
           (answering 200 (document {[ "EUR" := PyFloat (Float64.int_true_divide 9 10) ]}))
           (document {[ "EUR" := PyFloat (Float64.int_true_divide 9 10) ]})
           {[ "EUR" := PyFloat (Float64.int_true_divide 9 10) ]});
    reflexivity.
Defined.

(** C6 at HTTP 403 with error-type "forbidden". *)
Lemma api_error_witness :
  get_exchange_rate sample_repr (serving (answering 403 forbidden)) =
    ([EvHttpGet URL], Ret (failure "API Error: forbidden")).
Proof.
  apply (api_error sample_repr (serving (answering 403 forbidden))
           (answering 403 forbidden) forbidden);
    [reflexivity | reflexivity | left; simpl; lia].
Defined.

(** C7 at "Connection refused". *)
Lemma transport_failure_witness :
  get_exchange_rate sample_repr refusing =
    ([EvHttpGet URL], Ret (failure "Request failed: Connection refused")).
Proof.
  apply (transport_failure sample_repr refusing "Connection refused").
  reflexivity.
Defined.

(** C3, amended, at the integer rate 0. *)
Lemma zero_rate_guarded_witness :
  get_exchange_rate sample_repr (serving (answering 200 (document (ngn (PyInt 0))))) =
    ([EvHttpGet URL], Ret (failure "NGN rate not found in the response")).
Proof.
  apply (zero_rate_guarded sample_repr _
           (answering 200 (document (ngn (PyInt 0))))
           (document (ngn (PyInt 0))) (ngn (PyInt 0)) (PyInt 0));
    reflexivity.
Defined.

(** C3, as stated, at NGN = 0.0: the run ends in the missing-rate failure
    and its trace holds no division. *)
Lemma zero_rate_never_divided :
  let w := serving (answering 200 (document (ngn (PyFloat Float64.zero)))) in
  get_exchange_rate sample_repr w =
    ([EvHttpGet URL], Ret (failure "NGN rate not found in the response"))
  /\ ~ In (EvTrueDiv (PyFloat Float64.zero)) (trace (get_exchange_rate sample_repr w)).
Proof.
  split; [reflexivity|].
  intros [H|[]]. discriminate H.
Qed.

(** C9, amended, with the upstream refusing connections. *)
Lemma index_status_witness :
  exists body,
    snd (handle_get sample_repr refusing "/") = Ok200 body /\
    (forall msg, failure "Request failed: Connection refused" = failure msg ->
                 body = error_page msg).
Proof.
  apply (index_status sample_repr refusing
           (failure "Request failed: Connection refused")).
  - reflexivity.
  - intros v Hv. vm_compute in Hv. discriminate Hv.
  - intros v [Hv|Hv]; vm_compute in Hv; [|discriminate Hv].
    injection Hv as <-. reflexivity.
Defined.

Example index_page_on_failure :
  snd (handle_get sample_repr refusing "/") =
    Ok200 (error_page "Request failed: Connection refused").
Proof. vm_compute. reflexivity. Qed.

(** The test suite's rate of 1500.0 on the page. *)
Example index_page_on_success :
  snd (handle_get sample_repr
         (serving (answering 200 (document (ngn (PyFloat (Float64.of_int 1500)))))) "/") =
    Ok200 (template_head +:+
           paragraph "rate" "1 NGN = 0.000667 USD" +:+
           paragraph "rate" "1 USD = 1500.00 NGN" +:+
           paragraph "info" "Last Updated: Fri, 02 Jan 2026 12:30:00 +0000" +:+
           paragraph "info" "Current Time: 2026-01-02 12:30:00" +:+
           block_end +:+ template_tail).
Proof. vm_compute. reflexivity. Qed.

(** C9, as stated, at an integer rate beyond the binary64 range: the fetch
    succeeds and the page fails to render. *)
Lemma index_overflow :
  let w := serving (answering 200 (document (ngn beyond_double))) in
  outcome_of (get_exchange_rate sample_repr w) =
    Ret (success (PyFloat (inverse_rate beyond_double)) beyond_double stamp
           "2026-01-02 12:30:00")
  /\ snd (handle_get sample_repr w "/") =
      InternalServerError500 (OverflowError "int too large to convert to float")
  /\ status (snd (handle_get sample_repr w "/")) = 500.
Proof. repeat split; vm_compute; reflexivity. Qed.

(** C2, amended, at the test suite's rate of 1500.0. *)
Lemma main_display_witness :
  let w := serving (answering 200 (document (ngn (PyFloat (Float64.of_int 1500))))) in
  let d := success (PyFloat (inverse_rate (PyFloat (Float64.of_int 1500))))
             (PyFloat (Float64.of_int 1500)) stamp "2026-01-02 12:30:00" in
  outcome_of (main sample_repr w) = Ret tt /\
  (forall msg, d = failure msg ->
     trace (main sample_repr w) =
       fetching :: trace (get_exchange_rate sample_repr w) ++
       failure_lines msg /\
     stdout (trace (main sample_repr w)) = failure_report msg) /\
  (forall f rate stamp now x,
      d = success (PyFloat f) rate stamp now ->
      as_float rate = Some (Ret x) ->
      trace (main sample_repr w) =
        fetching :: trace (get_exchange_rate sample_repr w) ++
        rates_lines sample_repr f x stamp now /\
      stdout (trace (main sample_repr w)) = rates_report sample_repr f x stamp now).
Proof.
  apply (main_display sample_repr
           (serving (answering 200 (document (ngn (PyFloat (Float64.of_int 1500))))))).
  - reflexivity.
  - intros v Hv. vm_compute in Hv. injection Hv as <-. exact I.
  - intros v [Hv|Hv]; vm_compute in Hv; [discriminate Hv|].
    injection Hv as <-. reflexivity.
Defined.

Example main_prints_rates :
  stdout (trace (main sample_repr
    (serving (answering 200 (document (ngn (PyFloat (Float64.of_int 1500)))))))) =
    "Fetching current NGN to USD exchange rate..." +:+ newline +:+ newline +:+
    "Current Exchange Rates:" +:+ newline +:+
    "1 NGN = 0.000667 USD" +:+ newline +:+
    "1 USD = 1500.00 NGN" +:+ newline +:+ newline +:+
    "Last Updated: Fri, 02 Jan 2026 12:30:00 +0000" +:+ newline +:+
    "Current Time: 2026-01-02 12:30:00" +:+ newline.
Proof. vm_compute. reflexivity. Qed.

(** The catch-all handler at work: a successful document without "rates". *)
Example unexpected_error_run :
  get_exchange_rate sample_repr
    (serving (answering 200 {[ "result" := PyStr "success" ]})) =
    ([EvHttpGet URL], Ret (failure "An unexpected error occurred: 'rates'")).
Proof. vm_compute. reflexivity. Qed.

(** C2, as stated, with the upstream refusing connections: the script
    prints its start-up line and serves; it performs no request and its
    output is not the report of [main]. *)
Lemma script_serves :
  script =
    ([EvPrint "Starting web server. Access the exchange rate at http://127.0.0.1:5000/";
      EvServe "0.0.0.0" 5000 true], Ret tt)
  /\ ~ In (EvHttpGet URL) (trace script)
  /\ stdout (trace (main sample_repr refusing)) =
       failure_report "Request failed: Connection refused"
  /\ stdout (trace script) <> stdout (trace (main sample_repr refusing)).
Proof.
  split; [reflexivity|]. split; [|split].
  - intros [H|[H|[]]]; discriminate H.
  - vm_compute. reflexivity.
  - vm_compute. discriminate.
Qed.

(** ** Concrete runs of the further properties *)

(** X1 at a JSON null. *)
Lemma falsy_rate_not_found_witness :
  get_exchange_rate sample_repr (serving (answering 200 (document (ngn PyNone)))) =
    ([EvHttpGet URL], Ret (failure "NGN rate not found in the response")).
Proof.
  apply (falsy_rate_not_found sample_repr _
           (answering 200 (document (ngn PyNone)))
           (document (ngn PyNone)) (ngn PyNone) PyNone);
    reflexivity.
Defined.

(** X2 at the rate written as a string. *)
Lemma non_numeric_rate_witness :
  get_exchange_rate sample_repr
    (serving (answering 200 (document (ngn (PyStr "1500.0"))))) =
    ([EvHttpGet URL; EvTrueDiv (PyStr "1500.0")],
     Ret (failure "An unexpected error occurred: unsupported operand type(s) for /: 'int' and 'str'")).
Proof.
  apply (non_numeric_rate sample_repr _
           (answering 200 (document (ngn (PyStr "1500.0"))))
           (document (ngn (PyStr "1500.0"))) (ngn (PyStr "1500.0")) (PyStr "1500.0"));
    reflexivity.
Defined.

(** -0.25, the inverse of -4. *)
Example inverse_of_minus_four :
  inverse_rate (PyInt (-4)) = S754_finite true 4503599627370496 (-54).
Proof. vm_compute. reflexivity. Qed.

(** X3 at the rate -4. *)
Lemma nonzero_rate_accepted_witness :
  get_exchange_rate sample_repr (serving (answering 200 (document (ngn (PyInt (-4)))))) =
    ([EvHttpGet URL; EvTrueDiv (PyInt (-4)); EvClock],
     Ret (success (PyFloat (inverse_rate (PyInt (-4)))) (PyInt (-4)) stamp
            "2026-01-02 12:30:00")).
Proof.
  apply (nonzero_rate_accepted sample_repr
           (serving (answering 200 (document (ngn (PyInt (-4))))))
           (answering 200 (document (ngn (PyInt (-4)))))
           (document (ngn (PyInt (-4)))) (ngn (PyInt (-4))) (PyInt (-4)) stamp);
    try reflexivity.
  simpl. lia.
Defined.

(** X4 at a document that has a rate of 1000.0 and nothing else. *)
Lemma missing_update_time_witness :
  get_exchange_rate sample_repr
    (serving (answering 200
       {[ "result" := PyStr "success"; "rates" := PyDict (ngn thousand) ]})) =
    ([EvHttpGet URL; EvTrueDiv thousand],
     Ret (failure "An unexpected error occurred: 'time_last_update_utc'")).
Proof.
  apply (missing_update_time sample_repr _
           (answering 200
              {[ "result" := PyStr "success"; "rates" := PyDict (ngn thousand) ]})
           {[ "result" := PyStr "success"; "rates" := PyDict (ngn thousand) ]}
           (ngn thousand) thousand);
    reflexivity.
Defined.

(** X5 at the empty object. *)
Lemma missing_result_witness :
  get_exchange_rate sample_repr (serving (answering 200 ∅)) =
    ([EvHttpGet URL], Ret (failure "An unexpected error occurred: 'result'")).
Proof.
  apply (missing_result sample_repr _ (answering 200 ∅) ∅); reflexivity.
Defined.

(** X6 at a document that only says "success". *)
Lemma missing_rates_witness :
  get_exchange_rate sample_repr
    (serving (answering 200 {[ "result" := PyStr "success" ]})) =
    ([EvHttpGet URL], Ret (failure "An unexpected error occurred: 'rates'")).
Proof.
  apply (missing_rates sample_repr _
           (answering 200 {[ "result" := PyStr "success" ]})
           {[ "result" := PyStr "success" ]});
    reflexivity.
Defined.

(** X7 at "rates": null. *)
Lemma rates_not_a_mapping_witness :
  get_exchange_rate sample_repr
    (serving (answering 200 {[ "result" := PyStr "success"; "rates" := PyNone ]})) =
    ([EvHttpGet URL],
     Ret (failure "An unexpected error occurred: 'NoneType' object has no attribute 'get'")).
Proof.
  apply (rates_not_a_mapping sample_repr _
           (answering 200 {[ "result" := PyStr "success"; "rates" := PyNone ]})
           {[ "result" := PyStr "success"; "rates" := PyNone ]} PyNone);
    try reflexivity.
  intros m H. discriminate H.
Defined.

(** X8 at an HTML error page served with status 502, on a [requests]
    whose decoding error is a [ValueError]. *)
Lemma body_not_json_witness :
  get_exchange_rate sample_repr
    (serving (Response 502 (Raise (ValueError "Expecting value: line 1 column 1 (char 0)")))) =
    ([EvHttpGet URL],
     Ret (failure "An unexpected error occurred: Expecting value: line 1 column 1 (char 0)")).
Proof.
  apply (body_not_json sample_repr _
           (Response 502 (Raise (ValueError "Expecting value: line 1 column 1 (char 0)")))
           (ValueError "Expecting value: line 1 column 1 (char 0)"));
    reflexivity.
Defined.

(** X9 at the body [[]] with status 200. *)
Lemma document_not_a_mapping_witness :
  exists text,
    get_exchange_rate sample_repr (serving (Response 200 (Ret (PyList [])))) =
      ([EvHttpGet URL], Ret (failure ("An unexpected error occurred: " +:+ text))).
Proof.
  apply (document_not_a_mapping sample_repr _
           (Response 200 (Ret (PyList []))) (PyList []));
    try reflexivity.
  intros d H. discriminate H.
Defined.

(** X14 at the test suite's rate of 1500.0. *)
Lemma index_rates_page_witness :
  snd (handle_get sample_repr
         (serving (answering 200 (document (ngn (PyFloat (Float64.of_int 1500)))))) "/") =
    Ok200 (rates_page sample_repr
             (inverse_rate (PyFloat (Float64.of_int 1500))) (Float64.of_int 1500)
             stamp "2026-01-02 12:30:00").
Proof.
  apply (index_rates_page sample_repr
           (serving (answering 200 (document (ngn (PyFloat (Float64.of_int 1500))))))
           (inverse_rate (PyFloat (Float64.of_int 1500)))
           (PyFloat (Float64.of_int 1500)) stamp "2026-01-02 12:30:00"
           (Float64.of_int 1500));
    reflexivity.
Defined.

(** X16 at the integer rate 10^309. *)
Lemma main_overflow_witness :
  outcome_of (main sample_repr (serving (answering 200 (document (ngn beyond_double))))) =
    Raise (OverflowError "int too large to convert to float") /\
  stdout (trace (main sample_repr (serving (answering 200 (document (ngn beyond_double)))))) =
    partial_report (inverse_rate beyond_double).
Proof.
  apply (main_overflow sample_repr
           (serving (answering 200 (document (ngn beyond_double))))
           (inverse_rate beyond_double) beyond_double stamp "2026-01-02 12:30:00"
           (OverflowError "int too large to convert to float"));
    vm_compute; reflexivity.
Defined.

(** The first rate line of that run: 1e-309 at six decimals. *)
Example partial_report_beyond_double :
  partial_report (inverse_rate beyond_double) =
    "Fetching current NGN to USD exchange rate..." +:+ newline +:+ newline +:+
    "Current Exchange Rates:" +:+ newline +:+
    "1 NGN = 0.000000 USD" +:+ newline.
Proof. vm_compute. reflexivity. Qed.

(** ** Text that cannot be encoded *)

(** HTTP 403 with that string as error-type: the fetch returns the failure
    with the surrogate in its message, the page cannot be encoded and
    GET / is answered 500; [main] raises when it prints the message, after
    the banner. *)
Example surrogate_error_type :
  let w := serving (answering 403
             {[ "result" := PyStr "error"; "error-type" := PyStr lone_surrogate ]}) in
  outcome_of (get_exchange_rate sample_repr w) =
    Ret (failure ("API Error: " +:+ lone_surrogate))
  /\ snd (handle_get sample_repr w "/") =
      InternalServerError500
        (UnicodeEncodeError
           "'utf-8' codec can't encode character '\ud800' in position 587: surrogates not allowed")
  /\ main sample_repr w =
      ([fetching; EvHttpGet URL],
       Raise (UnicodeEncodeError
                "'utf-8' codec can't encode character '\ud800' in position 18: surrogates not allowed")).
Proof. repeat split; vm_compute; reflexivity. Qed.
